(** * Habit tracker: state model and derived statistics

    A shallow embedding of the two variants of the [HabitTracker] component:
    the weeks variant ([src/components/HabitTracker.tsx], a grid of habits
    against a configurable number of weeks) and the days variant (a grid of
    habits against the seven days of the week).

    The component state is modelled as a record, every event handler as a
    function from state to state, and the memoised statistics as a function
    of the state.  JavaScript numbers that hold counts and indices are
    integers ([Z]); the one place where the code leaves the integers, the
    percentage [Math.round((completedCount / total) * 100)], is evaluated on
    binary64 floating-point numbers as the engine does. *)

From Stdlib Require Import ZArith Lia.
From Stdlib Require Import Floats.PrimFloat Floats.FloatOps Floats.SpecFloat.
From stdpp Require Import base option list gmap strings pretty.

Local Open Scope Z_scope.

(** ** JavaScript primitives used by the component *)

Module JS.

(** A count held in a JavaScript number, as the binary64 value the
    division operates on (round to nearest even; exact below [2^53]). *)
Definition to_double (z : Z) : float :=
  SF2Prim (binary_normalize prec emax z 0 false).

(** [Math.round]: the integer nearest to [x], a tie going towards
    [+∞], that is [floor (x + 1/2)] computed exactly on the mantissa and
    the exponent of [x].  [NaN] and the infinities, which [Math.round]
    returns unchanged, are not integers; the component only rounds under the
    guard [total > 0], and they are mapped to [0] here. *)
Definition Math_round (x : float) : Z :=
  match Prim2SF x with
  | S754_finite sgn m e =>
      let n := if sgn then Z.neg m else Z.pos m in
      if 0 <=? e then n * 2 ^ e
      else (2 * n + 2 ^ (- e)) / 2 ^ (- e + 1)
  | _ => 0
  end.

(** [v || false] for [v] a boolean or [undefined]. *)
Definition or_false (v : option bool) : bool :=
  match v with
  | Some true => true
  | _ => false
  end.

(** The template literal [`Habit ${k}`]. *)
Definition habit_label (k : Z) : string := "Habit " +:+ pretty k.

(** [parsed || 1] for [parsed] the result of [parseInt]: an integer, or
    [NaN] ([None]).  [NaN] and [0] are falsy. *)
Definition or_one (parsed : option Z) : Z :=
  match parsed with
  | Some n => if n =? 0 then 1 else n
  | None => 1
  end.

End JS.

(** The values the component derives for display. *)
Record Stats := {
  completed : Z;
  remaining : Z;
  percentage : Z
}.

(** ** Weeks variant: [src/components/HabitTracker.tsx] *)

Module Weeks.

(** The four [useState] cells.  [checkedState] is the object of objects
    [HabitData]; an element of [habitNames] is [None] where the array has a
    hole or [undefined]. *)
Record State := {
  weeks : Z;
  habits : Z;
  habitNames : list (option string);
  checkedState : gmap Z (gmap Z bool)
}.

Definition initial : State := {|
  weeks := 4;
  habits := 3;
  habitNames := [Some "Exercise"; Some "Read"; Some "Meditate"];
  checkedState := ∅
|}.

Definition handleWeeksChange (value : Z) (s : State) : State := {|
  weeks := Z.max 1 (Z.min 12 value);
  habits := habits s;
  habitNames := habitNames s;
  checkedState := checkedState s
|}.

Definition handleHabitsChange (value : Z) (s : State) : State :=
  let newValue := Z.max 1 (Z.min 10 value) in
  let len := Z.of_nat (length (habitNames s)) in
  {| weeks := weeks s;
     habits := newValue;
     habitNames :=
       if len <? newValue then
         habitNames s ++
           imap (λ i _, Some (JS.habit_label (len + Z.of_nat i + 1)))
                (replicate (Z.to_nat (newValue - len)) "")
       else habitNames s;
     checkedState := checkedState s |}.

(** [newNames[index] = name] on a copy of the array: in range the element
    is replaced, beyond the end the array grows and the skipped positions
    are holes.  The view calls it with the index of a rendered row, a
    natural number. *)
Definition handleHabitNameChange (index : nat) (name : string) (s : State)
  : State :=
  let newNames :=
    if (index <? length (habitNames s))%nat then
      <[index := Some name]> (habitNames s)
    else
      habitNames s
        ++ replicate (index - length (habitNames s))%nat None
        ++ [Some name] in
  {| weeks := weeks s;
     habits := habits s;
     habitNames := newNames;
     checkedState := checkedState s |}.

Definition handleCheckChange (habitIndex weekIndex : Z) (checked : bool)
    (s : State) : State :=
  let prev := checkedState s in
  {| weeks := weeks s;
     habits := habits s;
     habitNames := habitNames s;
     checkedState :=
       <[habitIndex := <[weekIndex := checked]> (default ∅ (prev !! habitIndex))]>
         prev |}.

Definition isChecked (s : State) (habitIndex weekIndex : Z) : bool :=
  JS.or_false (checkedState s !! habitIndex ≫= λ row, row !! weekIndex).

(** The body of the [useMemo]: two nested counting loops, then the three
    derived values. *)
Definition DerivedStats (s : State) : Stats :=
  let total := habits s * weeks s in
  let completedCount :=
    foldl (λ count h,
             foldl (λ count w, if isChecked s h w then count + 1 else count)
                   count (seqZ 0 (weeks s)))
          0 (seqZ 0 (habits s)) in
  {| completed := completedCount;
     remaining := total - completedCount;
     percentage :=
       if 0 <? total then
         JS.Math_round
           (JS.to_double completedCount / JS.to_double total
              * JS.to_double 100)%float
       else 0 |}.

(** The edits the view dispatches: the two number inputs call the count
    handlers with the parsed integer ([parseInt(...) || 1]), a name input
    calls [handleHabitNameChange] and a checkbox [handleCheckChange]. *)
Inductive Action :=
| SetWeekCount (n : Z)
| SetHabitCount (n : Z)
| RenameHabit (index : nat) (name : string)
| Toggle (habitIndex weekIndex : Z) (checked : bool).

Definition step (s : State) (a : Action) : State :=
  match a with
  | SetWeekCount n => handleWeeksChange n s
  | SetHabitCount n => handleHabitsChange n s
  | RenameHabit i name => handleHabitNameChange i name s
  | Toggle h w v => handleCheckChange h w v s
  end.

Definition run (ops : list Action) (s : State) : State := foldl step s ops.

(** *** The view

    What the component renders from a state, and the events its inputs
    send back. *)

(** The [onChange] of the two number inputs. *)
Definition onWeeksInput (parsed : option Z) (s : State) : State :=
  handleWeeksChange (JS.or_one parsed) s.

Definition onHabitsInput (parsed : option Z) (s : State) : State :=
  handleHabitsChange (JS.or_one parsed) s.

(** The value of a row's name input,
    [habitNames[habitIndex] || `Habit ${habitIndex + 1}`]: the stored name
    unless it is absent or the empty string. *)
Definition displayName (s : State) (habitIndex : nat) : string :=
  match habitNames s !! habitIndex with
  | Some (Some name) =>
      if decide (name = "") then JS.habit_label (Z.of_nat habitIndex + 1)
      else name
  | _ => JS.habit_label (Z.of_nat habitIndex + 1)
  end.

(** The header cells [Week {i + 1}], one per week. *)
Definition tableHeaders (s : State) : list string :=
  (λ i, "Week " +:+ pretty (i + 1)) <$> seqZ 0 (weeks s).

(** A row of the table body: the name input and the checkboxes. *)
Record Row := {
  nameValue : string;
  namePlaceholder : string;
  boxes : list bool
}.

Definition tableRows (s : State) : list Row :=
  (λ habitIndex,
     {| nameValue := displayName s (Z.to_nat habitIndex);
        namePlaceholder := JS.habit_label (habitIndex + 1);
        boxes := (λ weekIndex, isChecked s habitIndex weekIndex)
                   <$> seqZ 0 (weeks s) |})
    <$> seqZ 0 (habits s).

(** The two slices handed to the chart. *)
Record Slice := {
  sliceName : string;
  sliceValue : Z;
  sliceColor : string
}.

Definition pieData (s : State) : list Slice :=
  [ {| sliceName := "Completed";
       sliceValue := completed (DerivedStats s);
       sliceColor := "hsl(var(--chart-completed))" |};
    {| sliceName := "Remaining";
       sliceValue := remaining (DerivedStats s);
       sliceColor := "hsl(var(--chart-remaining))" |} ].

End Weeks.

(** ** Days variant: the tracker over the seven days of the week *)

Module Days.

Definition DAYS_OF_WEEK : list string :=
  ["Mon"; "Tue"; "Wed"; "Thu"; "Fri"; "Sat"; "Sun"].

Record State := {
  habits : Z;
  habitNames : list (option string);
  checkedState : gmap Z (gmap Z bool)
}.

Definition initial : State := {|
  habits := 3;
  habitNames := [Some "Exercise"; Some "Read"; Some "Meditate"];
  checkedState := ∅
|}.

Definition handleHabitsChange (value : Z) (s : State) : State :=
  let newValue := Z.max 1 (Z.min 10 value) in
  let len := Z.of_nat (length (habitNames s)) in
  {| habits := newValue;
     habitNames :=
       if len <? newValue then
         habitNames s ++
           imap (λ i _, Some (JS.habit_label (len + Z.of_nat i + 1)))
                (replicate (Z.to_nat (newValue - len)) "")
       else habitNames s;
     checkedState := checkedState s |}.

Definition handleHabitNameChange (index : nat) (name : string) (s : State)
  : State :=
  let newNames :=
    if (index <? length (habitNames s))%nat then
      <[index := Some name]> (habitNames s)
    else
      habitNames s
        ++ replicate (index - length (habitNames s))%nat None
        ++ [Some name] in
  {| habits := habits s;
     habitNames := newNames;
     checkedState := checkedState s |}.

Definition handleCheckChange (habitIndex dayIndex : Z) (checked : bool)
    (s : State) : State :=
  let prev := checkedState s in
  {| habits := habits s;
     habitNames := habitNames s;
     checkedState :=
       <[habitIndex := <[dayIndex := checked]> (default ∅ (prev !! habitIndex))]>
         prev |}.

Definition isChecked (s : State) (habitIndex dayIndex : Z) : bool :=
  JS.or_false (checkedState s !! habitIndex ≫= λ row, row !! dayIndex).

Definition DerivedStats (s : State) : Stats :=
  let total := habits s * 7 in
  let completedCount :=
    foldl (λ count h,
             foldl (λ count d, if isChecked s h d then count + 1 else count)
                   count (seqZ 0 7))
          0 (seqZ 0 (habits s)) in
  {| completed := completedCount;
     remaining := total - completedCount;
     percentage :=
       if 0 <? total then
         JS.Math_round
           (JS.to_double completedCount / JS.to_double total
              * JS.to_double 100)%float
       else 0 |}.

Inductive Action :=
| SetHabitCount (n : Z)
| RenameHabit (index : nat) (name : string)
| Toggle (habitIndex dayIndex : Z) (checked : bool).

Definition step (s : State) (a : Action) : State :=
  match a with
  | SetHabitCount n => handleHabitsChange n s
  | RenameHabit i name => handleHabitNameChange i name s
  | Toggle h d v => handleCheckChange h d v s
  end.

Definition run (ops : list Action) (s : State) : State := foldl step s ops.

(** A days-variant state read as a weeks-variant state with seven
    columns. *)
Definition as_weeks (s : State) : Weeks.State := {|
  Weeks.weeks := 7;
  Weeks.habits := habits s;
  Weeks.habitNames := habitNames s;
  Weeks.checkedState := checkedState s
|}.

(** *** The view *)

Definition onHabitsInput (parsed : option Z) (s : State) : State :=
  handleHabitsChange (JS.or_one parsed) s.

Definition displayName (s : State) (habitIndex : nat) : string :=
  match habitNames s !! habitIndex with
  | Some (Some name) =>
      if decide (name = "") then JS.habit_label (Z.of_nat habitIndex + 1)
      else name
  | _ => JS.habit_label (Z.of_nat habitIndex + 1)
  end.

(** The header cells are the day names. *)
Definition tableHeaders : list string := DAYS_OF_WEEK.

Record Row := {
  nameValue : string;
  namePlaceholder : string;
  boxes : list bool
}.

(** The checkboxes of a row come from [DAYS_OF_WEEK.map((_, dayIndex) => ...)]. *)
Definition tableRows (s : State) : list Row :=
  (λ habitIndex,
     {| nameValue := displayName s (Z.to_nat habitIndex);
        namePlaceholder := JS.habit_label (habitIndex + 1);
        boxes := imap (λ dayIndex _, isChecked s habitIndex (Z.of_nat dayIndex))
                      DAYS_OF_WEEK |})
    <$> seqZ 0 (habits s).

Definition pieData (s : State) : list Weeks.Slice :=
  [ {| Weeks.sliceName := "Completed";
       Weeks.sliceValue := completed (DerivedStats s);
       Weeks.sliceColor := "hsl(var(--chart-completed))" |};
    {| Weeks.sliceName := "Remaining";
       Weeks.sliceValue := remaining (DerivedStats s);
       Weeks.sliceColor := "hsl(var(--chart-remaining))" |} ].

End Days.

(** ** Reference notions the statements are phrased with *)

(** [n] clamped to the interval [[lo, hi]]. *)
Definition clamp (lo hi n : Z) : Z :=
  if n <? lo then lo else if hi <? n then hi else n.

(** The cells of a grid of [habits] rows and [slots] columns. *)
Definition cells (habits slots : Z) : list (Z * Z) :=
  h ← seqZ 0 habits; pair h <$> seqZ 0 slots.

(** The number of cells of the grid on which [isSet] holds. *)
Definition count_set (isSet : Z → Z → bool) (habits slots : Z) : Z :=
  Z.of_nat (length (filter (λ c, isSet c.1 c.2 = true) (cells habits slots))).

(** [c / t × 100] rounded to the nearest integer in exact arithmetic, a
    half rounding up: [floor (100 c / t + 1/2)]. *)
Definition round_percent (c t : Z) : Z := (200 * c + t) / (2 * t).

(** The percentage expression of [DerivedStats] as a function of the two
    counts it reads. *)
Definition percent_of (c t : Z) : Z :=
  if 0 <? t then
    JS.Math_round (JS.to_double c / JS.to_double t * JS.to_double 100)%float
  else 0.

(** What the floating-point percentage is checked against, cell by cell:
    it lies in [[0, 100]] and is the exactly rounded percentage, except at
    the ratio [23/40] where it is one below. *)
Definition percent_cell_ok (t c : Z) : bool :=
  let p := percent_of c t in
  (0 <=? p) && (p <=? 100) &&
  (if 40 * c =? 23 * t then p =? round_percent c t - 1
   else p =? round_percent c t).

Definition percent_row_ok (t : Z) : bool :=
  forallb (percent_cell_ok t) (seqZ 0 (t + 1)).

(** The ranges the clamping handlers keep the two counts in. *)
Definition in_bounds (s : Weeks.State) : Prop :=
  1 ≤ Weeks.habits s ≤ 10 ∧ 1 ≤ Weeks.weeks s ≤ 12.

(** Checking a list of cells, in both variants. *)
Definition check_cells (cs : list (Z * Z)) : list Weeks.Action :=
  (λ c, Weeks.Toggle c.1 c.2 true) <$> cs.

Definition check_days (cs : list (Z * Z)) : list Days.Action :=
  (λ c, Days.Toggle c.1 c.2 true) <$> cs.

(** Two states show the same grid: equal counts, and every cell inside the
    grid reads the same.  Entries outside the grid are left free. *)
Definition same_grid (s s' : Weeks.State) : Prop :=
  Weeks.habits s' = Weeks.habits s
  ∧ Weeks.weeks s' = Weeks.weeks s
  ∧ ∀ h w, 0 ≤ h < Weeks.habits s → 0 ≤ w < Weeks.weeks s →
           Weeks.isChecked s' h w = Weeks.isChecked s h w.

(** A days-variant edit as the weeks-variant edit that does the same. *)
Definition days_action (a : Days.Action) : Weeks.Action :=
  match a with
  | Days.SetHabitCount n => Weeks.SetHabitCount n
  | Days.RenameHabit i name => Weeks.RenameHabit i name
  | Days.Toggle h d v => Weeks.Toggle h d v
  end.

(** ** Notions for the further properties *)

(** The events the rendered view can send in a state: the number inputs
    send any integer, a name input exists for each rendered row, a checkbox
    for each rendered cell. *)
Definition dispatched (s : Weeks.State) (a : Weeks.Action) : Prop :=
  match a with
  | Weeks.SetWeekCount _ | Weeks.SetHabitCount _ => True
  | Weeks.RenameHabit i _ => Z.of_nat i < Weeks.habits s
  | Weeks.Toggle h w _ => 0 ≤ h < Weeks.habits s ∧ 0 ≤ w < Weeks.weeks s
  end.

(** The states the user can bring the component to. *)
Inductive ui_reachable : Weeks.State → Prop :=
| ui_initial : ui_reachable Weeks.initial
| ui_event s a :
    ui_reachable s → dispatched s a → ui_reachable (Weeks.step s a).

(** An edit that renames row [i]. *)
Definition renames (i : nat) (a : Weeks.Action) : Prop :=
  match a with
  | Weeks.RenameHabit j _ => j = i
  | _ => False
  end.

(** The number of ticked and of unticked checkboxes among the rows. *)
Definition ticked (rows : list (list bool)) : Z :=
  Z.of_nat (length (filter (λ b, b = true) (mjoin rows))).

Definition unticked (rows : list (list bool)) : Z :=
  Z.of_nat (length (filter (λ b, b = false) (mjoin rows))).

(** What the percentage is checked for at its two ends and from one count
    to the next: 100 exactly when every cell is completed, 0 exactly when
    none is, and never lower for one more completed cell. *)
Definition percent_ends_ok (t c : Z) : bool :=
  let p := percent_of c t in
  Bool.eqb (p =? 100) (c =? t) && Bool.eqb (p =? 0) (c =? 0)
  && (if c <? t then p <=? percent_of (c + 1) t else true).

Definition percent_ends_row_ok (t : Z) : bool :=
  forallb (percent_ends_ok t) (seqZ 0 (t + 1)).

(** * Properties *)

(** ** The counting loops *)

Section counting.
Context (f : Z → Z → bool).

Lemma inner_loop_count (g : Z → bool) (ws : list Z) (acc : Z) :
  foldl (λ count w, if g w then count + 1 else count) acc ws
  = acc + Z.of_nat (length (filter (λ w, g w = true) ws)).
Proof.
  revert acc. induction ws as [|w ws IH]; intros acc; simpl.
  - lia.
  - rewrite IH, filter_cons.
    case_decide as Hg; destruct (g w); try done; simpl; lia.
Qed.

Lemma row_cells_count (h : Z) (ws : list Z) :
  length (filter (λ c : Z * Z, f c.1 c.2 = true) (pair h <$> ws))
  = length (filter (λ w, f h w = true) ws).
Proof.
  induction ws as [|w ws IH]; [done|].
  rewrite fmap_cons, !filter_cons. simpl.
  repeat case_decide; try done; simpl; by rewrite IH.
Qed.

Lemma nested_loop_count (hs ws : list Z) (acc : Z) :
  foldl (λ count h,
           foldl (λ count w, if f h w then count + 1 else count) count ws)
        acc hs
  = acc + Z.of_nat (length (filter (λ c : Z * Z, f c.1 c.2 = true)
                                   (h ← hs; pair h <$> ws))).
Proof.
  revert acc. induction hs as [|h hs IH]; intros acc.
  - simpl. lia.
  - rewrite bind_cons. cbn [foldl].
    rewrite IH, inner_loop_count, filter_app, length_app, row_cells_count.
    lia.
Qed.
End counting.

Lemma grid_length (hs ws : list Z) :
  length (h ← hs; pair h <$> ws) = (length hs * length ws)%nat.
Proof.
  induction hs as [|h hs IH]; [done|].
  rewrite bind_cons, length_app, length_fmap, IH. simpl. lia.
Qed.

Lemma cells_length (habits slots : Z) :
  length (cells habits slots) = (Z.to_nat habits * Z.to_nat slots)%nat.
Proof. unfold cells. by rewrite grid_length, !length_seqZ. Qed.

Lemma count_set_bounds (isSet : Z → Z → bool) (habits slots : Z) :
  0 ≤ habits → 0 ≤ slots →
  0 ≤ count_set isSet habits slots ≤ habits * slots.
Proof.
  intros Hh Hw. unfold count_set.
  pose proof (length_filter (λ c : Z * Z, isSet c.1 c.2 = true)
                (cells habits slots)) as Hle.
  rewrite cells_length in Hle. split; [lia|].
  etrans; [apply Nat2Z.inj_le, Hle|]. rewrite Nat2Z.inj_mul. lia.
Qed.

(** ** The floating-point percentage on grids of at most 120 cells *)

Lemma percent_table : forallb percent_row_ok (seqZ 1 120) = true.
Proof. vm_compute. reflexivity. Qed.

Lemma percent_cell_checked (c t : Z) :
  1 ≤ t ≤ 120 → 0 ≤ c ≤ t → percent_cell_ok t c = true.
Proof.
  intros Ht Hc. pose proof percent_table as Htab.
  rewrite forallb_forall in Htab.
  assert (percent_row_ok t = true) as Hrow.
  { apply Htab, list_elem_of_In, elem_of_seqZ. lia. }
  unfold percent_row_ok in Hrow. rewrite forallb_forall in Hrow.
  apply Hrow, list_elem_of_In, elem_of_seqZ. lia.
Qed.

Lemma percent_of_range (c t : Z) :
  0 ≤ t ≤ 120 → 0 ≤ c ≤ t → 0 ≤ percent_of c t ≤ 100.
Proof.
  intros Ht Hc. destruct (decide (t = 0)) as [->|Hne]; [done|].
  pose proof (percent_cell_checked c t ltac:(lia) Hc) as Hok.
  unfold percent_cell_ok in Hok. simpl in Hok.
  apply andb_prop in Hok as [Hok _]. apply andb_prop in Hok as [H0 H100].
  lia.
Qed.

Lemma percent_of_exact (c t : Z) :
  1 ≤ t ≤ 120 → 0 ≤ c ≤ t →
  percent_of c t
  = if 40 * c =? 23 * t then round_percent c t - 1 else round_percent c t.
Proof.
  intros Ht Hc. pose proof (percent_cell_checked c t Ht Hc) as Hok.
  unfold percent_cell_ok in Hok. simpl in Hok.
  apply andb_prop in Hok as [_ Hok].
  destruct (40 * c =? 23 * t); lia.
Qed.

(** ** Reading and writing cells *)

Lemma or_false_Some (b : bool) : JS.or_false (Some b) = b.
Proof. by destruct b. Qed.

Lemma isChecked_stored (s : Weeks.State) (h w : Z) :
  Weeks.isChecked s h w
  = match Weeks.checkedState s !! h with
    | Some row => match row !! w with Some b => b | None => false end
    | None => false
    end.
Proof.
  unfold Weeks.isChecked.
  destruct (Weeks.checkedState s !! h) as [row|]; [|done]. simpl.
  destruct (row !! w) as [b|]; [|done]. apply or_false_Some.
Qed.

Lemma isChecked_toggle (s : Weeks.State) (h w h' w' : Z) (v : bool) :
  Weeks.isChecked (Weeks.handleCheckChange h w v s) h' w'
  = if decide (h = h' ∧ w = w') then v else Weeks.isChecked s h' w'.
Proof.
  rewrite !isChecked_stored. simpl.
  destruct (decide (h = h')) as [<-|Hh].
  - rewrite lookup_insert_eq. destruct (decide (w = w')) as [<-|Hw].
    + rewrite lookup_insert_eq. by rewrite decide_True.
    + rewrite lookup_insert_ne by done. rewrite decide_False by tauto.
      by destruct (Weeks.checkedState s !! h).
  - rewrite lookup_insert_ne by done. by rewrite decide_False by tauto.
Qed.

Lemma isChecked_check_cells (cs : list (Z * Z)) (s : Weeks.State) (h w : Z) :
  Weeks.isChecked (Weeks.run (check_cells cs) s) h w = true
  ↔ (h, w) ∈ cs ∨ Weeks.isChecked s h w = true.
Proof.
  revert s. induction cs as [|[h0 w0] cs IH]; intros s.
  - simpl. rewrite elem_of_nil. tauto.
  - unfold Weeks.run, check_cells in *. rewrite fmap_cons. cbn [foldl].
    rewrite IH. simpl. rewrite isChecked_toggle, elem_of_cons.
    case_decide as Heq.
    + destruct Heq as [-> ->]. tauto.
    + split; [tauto|]. intros [[Hc|Hc]|Hc]; [|tauto..].
      injection Hc as -> ->. tauto.
Qed.

(** ** The derived values as functions of the grid *)

Lemma stats_completed (s : Weeks.State) :
  completed (Weeks.DerivedStats s)
  = count_set (Weeks.isChecked s) (Weeks.habits s) (Weeks.weeks s).
Proof.
  unfold Weeks.DerivedStats, count_set, cells. simpl.
  by rewrite (nested_loop_count (Weeks.isChecked s)).
Qed.

Lemma stats_remaining (s : Weeks.State) :
  remaining (Weeks.DerivedStats s)
  = Weeks.habits s * Weeks.weeks s - completed (Weeks.DerivedStats s).
Proof. done. Qed.

Lemma stats_percentage (s : Weeks.State) :
  percentage (Weeks.DerivedStats s)
  = percent_of (completed (Weeks.DerivedStats s))
               (Weeks.habits s * Weeks.weeks s).
Proof. done. Qed.

Lemma elem_of_cells (h w habits slots : Z) :
  (h, w) ∈ cells habits slots ↔ 0 ≤ h < habits ∧ 0 ≤ w < slots.
Proof.
  unfold cells. rewrite list_elem_of_bind. split.
  - intros (h0 & Hin & Hh). apply list_elem_of_fmap in Hin as (w0 & Heq & Hw).
    injection Heq as -> ->. apply elem_of_seqZ in Hh, Hw. lia.
  - intros [Hh Hw]. exists h. split.
    + apply list_elem_of_fmap. exists w. split; [done|].
      apply elem_of_seqZ. lia.
    + apply elem_of_seqZ. lia.
Qed.

Lemma NoDup_cells (habits slots : Z) : NoDup (cells habits slots).
Proof.
  unfold cells. apply NoDup_bind; [| |apply NoDup_seqZ].
  - intros h1 h2 [h w] _ _ H1 H2.
    apply list_elem_of_fmap in H1 as (? & [= -> _] & _).
    apply list_elem_of_fmap in H2 as (? & [= -> _] & _). done.
  - intros h _. apply NoDup_fmap_2; [|apply NoDup_seqZ].
    by intros ?? [= ->].
Qed.

Lemma filter_ext_in {A} (P Q : A → Prop)
    `{!∀ x, Decision (P x), !∀ x, Decision (Q x)} (l : list A) :
  (∀ x, x ∈ l → P x ↔ Q x) → filter P l = filter Q l.
Proof.
  induction l as [|x l IH]; intros HPQ; [done|].
  rewrite !filter_cons.
  rewrite IH by (intros y Hy; apply HPQ; by right).
  pose proof (HPQ x ltac:(by left)). repeat case_decide; tauto.
Qed.

Lemma count_set_ext (f g : Z → Z → bool) (habits slots : Z) :
  (∀ h w, 0 ≤ h < habits → 0 ≤ w < slots → f h w = g h w) →
  count_set f habits slots = count_set g habits slots.
Proof.
  intros Hfg. unfold count_set. do 2 f_equal.
  apply filter_ext_in. intros [h w] Hin. simpl.
  apply elem_of_cells in Hin as [Hh Hw]. by rewrite Hfg.
Qed.

(** Checking distinct cells of the grid, all other cells being unset,
    completes exactly as many cells as were checked. *)
Lemma count_set_members (f : Z → Z → bool) (cs : list (Z * Z))
    (habits slots : Z) :
  NoDup cs →
  Forall (λ c, 0 ≤ c.1 < habits ∧ 0 ≤ c.2 < slots) cs →
  (∀ h w, f h w = true ↔ (h, w) ∈ cs) →
  count_set f habits slots = Z.of_nat (length cs).
Proof.
  intros Hnd Hin Hf. unfold count_set. f_equal.
  apply Permutation_length, NoDup_Permutation; [|done|].
  - apply NoDup_filter, NoDup_cells.
  - intros [h w]. rewrite list_elem_of_filter, elem_of_cells. simpl.
    rewrite Hf. split; [tauto|]. intros Hc. split; [done|].
    rewrite Forall_forall in Hin. apply (Hin _ Hc).
Qed.

Lemma stats_ext (s s' : Weeks.State) :
  Weeks.habits s' = Weeks.habits s → Weeks.weeks s' = Weeks.weeks s →
  (∀ h w, 0 ≤ h < Weeks.habits s → 0 ≤ w < Weeks.weeks s →
          Weeks.isChecked s' h w = Weeks.isChecked s h w) →
  Weeks.DerivedStats s' = Weeks.DerivedStats s.
Proof.
  intros Hh Hw Hcells.
  assert (completed (Weeks.DerivedStats s') = completed (Weeks.DerivedStats s))
    as Hc.
  { rewrite !stats_completed, Hh, Hw. by apply count_set_ext. }
  pose proof (stats_remaining s) as Hr. pose proof (stats_remaining s') as Hr'.
  pose proof (stats_percentage s) as Hp.
  pose proof (stats_percentage s') as Hp'.
  rewrite Hh, Hw, Hc in Hr', Hp'.
  destruct (Weeks.DerivedStats s), (Weeks.DerivedStats s'). simpl in *.
  congruence.
Qed.

(** ** What every run preserves *)

Lemma step_in_bounds (s : Weeks.State) (a : Weeks.Action) :
  in_bounds s → in_bounds (Weeks.step s a).
Proof. unfold in_bounds. destruct a; simpl; lia. Qed.

Lemma run_in_bounds (ops : list Weeks.Action) (s : Weeks.State) :
  in_bounds s → in_bounds (Weeks.run ops s).
Proof.
  revert s. induction ops as [|a ops IH]; intros s Hs; [done|].
  apply IH, step_in_bounds, Hs.
Qed.

Lemma initial_in_bounds : in_bounds Weeks.initial.
Proof. unfold in_bounds. simpl. lia. Qed.

Lemma stats_bounds (s : Weeks.State) :
  0 ≤ Weeks.habits s ≤ 10 → 0 ≤ Weeks.weeks s ≤ 12 →
  let st := Weeks.DerivedStats s in
  0 ≤ completed st ≤ Weeks.habits s * Weeks.weeks s
  ∧ 0 ≤ remaining st
  ∧ 0 ≤ percentage st ≤ 100.
Proof.
  intros Hh Hw st.
  pose proof (count_set_bounds (Weeks.isChecked s) _ _ (proj1 Hh) (proj1 Hw))
    as Hc.
  rewrite <- stats_completed in Hc.
  unfold st. rewrite stats_remaining, stats_percentage.
  split; [done|]. split; [lia|]. apply percent_of_range; [nia|done].
Qed.

(** ** The days variant is the weeks variant with seven columns *)

Lemma days_stats (s : Days.State) :
  Days.DerivedStats s = Weeks.DerivedStats (Days.as_weeks s).
Proof. done. Qed.

Lemma days_isChecked (s : Days.State) (h d : Z) :
  Days.isChecked s h d = Weeks.isChecked (Days.as_weeks s) h d.
Proof. done. Qed.

Lemma days_step (s : Days.State) (a : Days.Action) :
  Days.as_weeks (Days.step s a) = Weeks.step (Days.as_weeks s) (days_action a).
Proof. by destruct a. Qed.

Lemma days_run (ops : list Days.Action) (s : Days.State) :
  Days.as_weeks (Days.run ops s)
  = Weeks.run (days_action <$> ops) (Days.as_weeks s).
Proof.
  revert s. induction ops as [|a ops IH]; intros s; [done|].
  unfold Days.run, Weeks.run in *. rewrite fmap_cons. cbn [foldl].
  by rewrite IH, days_step.
Qed.

Lemma days_run_in_bounds (ops : list Days.Action) :
  1 ≤ Days.habits (Days.run ops Days.initial) ≤ 10.
Proof.
  pose proof (run_in_bounds (days_action <$> ops) (Days.as_weeks Days.initial))
    as Hb.
  rewrite <- days_run in Hb. unfold in_bounds in Hb. simpl in Hb.
  apply Hb. lia.
Qed.

Lemma days_check_cells (cs : list (Z * Z)) :
  days_action <$> check_days cs = check_cells cs.
Proof. unfold check_days, check_cells. by rewrite <- list_fmap_compose. Qed.

(** ** Checking cells from an empty grid *)

Lemma check_cells_counts (cs : list (Z * Z)) (s : Weeks.State) :
  Weeks.habits (Weeks.run (check_cells cs) s) = Weeks.habits s
  ∧ Weeks.weeks (Weeks.run (check_cells cs) s) = Weeks.weeks s.
Proof.
  revert s. induction cs as [|c cs IH]; intros s; [done|].
  unfold Weeks.run, check_cells in *. rewrite fmap_cons. cbn [foldl].
  by rewrite !(proj1 (IH _)), !(proj2 (IH _)).
Qed.

Lemma isChecked_empty (s : Weeks.State) (h w : Z) :
  Weeks.checkedState s = ∅ → Weeks.isChecked s h w = false.
Proof. intros Hs. unfold Weeks.isChecked. by rewrite Hs, lookup_empty. Qed.

Lemma completed_check_cells (cs : list (Z * Z)) (s : Weeks.State) :
  Weeks.checkedState s = ∅ →
  NoDup cs →
  Forall (λ c, 0 ≤ c.1 < Weeks.habits s ∧ 0 ≤ c.2 < Weeks.weeks s) cs →
  completed (Weeks.DerivedStats (Weeks.run (check_cells cs) s))
  = Z.of_nat (length cs).
Proof.
  intros Hs Hnd Hin. rewrite stats_completed.
  destruct (check_cells_counts cs s) as [-> ->].
  apply count_set_members; [done..|].
  intros h w. rewrite isChecked_check_cells, isChecked_empty by done.
  split; [intros [?|?]; done|tauto].
Qed.

(** ** The percentage against exact rounding *)

(** Within the bounds the handlers maintain, the percentage is the exactly
    rounded one except when [completed / total] is [23/40], where the
    floating-point product falls just below [57.5] and rounds down. *)
Lemma percentage_characterised (s : Weeks.State) :
  in_bounds s →
  let st := Weeks.DerivedStats s in
  let total := Weeks.habits s * Weeks.weeks s in
  percentage st
  = if 40 * completed st =? 23 * total
    then round_percent (completed st) total - 1
    else round_percent (completed st) total.
Proof.
  intros [Hh Hw] st total. unfold st. rewrite stats_percentage.
  pose proof (stats_bounds s ltac:(lia) ltac:(lia)) as (Hc & _).
  apply percent_of_exact; [unfold total; nia|done].
Qed.

(** In the days variant the totals are [7, 14, ..., 70], none a multiple
    of 40, and the percentage is always the exactly rounded one. *)
Lemma days_percentage_exact (d : Days.State) :
  1 ≤ Days.habits d ≤ 10 →
  percentage (Days.DerivedStats d)
  = round_percent (completed (Days.DerivedStats d)) (Days.habits d * 7).
Proof.
  intros Hh. rewrite days_stats.
  rewrite (percentage_characterised (Days.as_weeks d))
    by (unfold in_bounds; simpl; lia).
  pose proof (stats_bounds (Days.as_weeks d) ltac:(simpl; lia)
                ltac:(simpl; lia)) as (Hc & _).
  simpl in *. case_match; [|done]. lia.
Qed.

(** ** Growing the list of names *)

Lemma imap_replicate {A B} (f : nat → A → B) (m : nat) (x : A) :
  imap f (replicate m x) = (λ i, f i x) <$> seq 0 m.
Proof.
  revert f. induction m as [|m IH]; intros f; [done|].
  cbn [replicate]. rewrite imap_cons, IH. cbn [seq fmap list_fmap].
  f_equal. by rewrite <- fmap_S_seq, <- list_fmap_compose.
Qed.

Lemma habit_names_after (n : Z) (s : Weeks.State) :
  Weeks.habitNames (Weeks.handleHabitsChange n s)
  = Weeks.habitNames s
      ++ ((λ k, Some (JS.habit_label k))
            <$> seqZ (Z.of_nat (length (Weeks.habitNames s)) + 1)
                     (clamp 1 10 n - Z.of_nat (length (Weeks.habitNames s)))).
Proof.
  assert (Z.max 1 (Z.min 10 n) = clamp 1 10 n) as Hk.
  { unfold clamp. repeat case_match; lia. }
  unfold Weeks.handleHabitsChange. cbn [Weeks.habitNames]. rewrite Hk.
  set (len := Z.of_nat (length (Weeks.habitNames s))).
  destruct (len <? clamp 1 10 n) eqn:Hlt.
  - f_equal. rewrite imap_replicate. unfold seqZ.
    rewrite <- list_fmap_compose. apply list_fmap_ext.
    intros _ i _. simpl. do 2 f_equal. lia.
  - unfold seqZ. replace (Z.to_nat (clamp 1 10 n - len)) with 0%nat by lia.
    by rewrite app_nil_r.
Qed.

(** * The specification's claims *)

(** C1: in every state reached by a sequence of edits (toggles, habit-count
    and week-count changes, renames), from the initial state or from any
    other, the derived values satisfy
    [completed + remaining = habits × timeSlots]; the time slots are the
    weeks in the weeks variant and the seven days in the days variant. *)
Theorem completed_plus_remaining
    (ops : list Weeks.Action) (s0 : Weeks.State)
    (dops : list Days.Action) (d0 : Days.State) :
  (let s := Weeks.run ops s0 in
   completed (Weeks.DerivedStats s) + remaining (Weeks.DerivedStats s)
   = Weeks.habits s * Weeks.weeks s)
  ∧ (let d := Days.run dops d0 in
     completed (Days.DerivedStats d) + remaining (Days.DerivedStats d)
     = Days.habits d * 7).
Proof.
  split.
  - intros s. rewrite stats_remaining. lia.
  - intros d. rewrite days_stats, stats_remaining. simpl. lia.
Qed.

(** C3: [handleHabitsChange n] sets the habit count to [n] clamped to
    [[1, 10]], for every integer [n] and in both variants (15 gives 10 and
    0 gives 1); [handleWeeksChange n] sets the week count to [n] clamped to
    [[1, 12]]. *)
Theorem counts_are_clamped (n : Z) (s : Weeks.State) (d : Days.State) :
  Weeks.habits (Weeks.handleHabitsChange n s) = clamp 1 10 n
  ∧ Days.habits (Days.handleHabitsChange n d) = clamp 1 10 n
  ∧ Weeks.weeks (Weeks.handleWeeksChange n s) = clamp 1 12 n
  ∧ Weeks.habits (Weeks.handleHabitsChange 15 s) = 10
  ∧ Weeks.habits (Weeks.handleHabitsChange 0 s) = 1
  ∧ Days.habits (Days.handleHabitsChange 15 d) = 10
  ∧ Days.habits (Days.handleHabitsChange 0 d) = 1.
Proof.
  unfold clamp. simpl.
  repeat split; try done; repeat case_match; lia.
Qed.

(** C5: [isChecked] is defined on every state and every pair of indices,
    inside the grid or not: it returns the boolean stored for the cell, and
    [false] when the row or the entry is absent. *)
Theorem isChecked_total (s : Weeks.State) (d : Days.State) (h w : Z) :
  Weeks.isChecked s h w
  = match Weeks.checkedState s !! h with
    | Some row => match row !! w with Some b => b | None => false end
    | None => false
    end
  ∧ Days.isChecked d h w
    = match Days.checkedState d !! h with
      | Some row => match row !! w with Some b => b | None => false end
      | None => false
      end.
Proof.
  split; [apply isChecked_stored|].
  rewrite days_isChecked. apply isChecked_stored.
Qed.

(** C6: [handleCheckChange] is idempotent: setting a cell to a value twice
    gives the state that setting it once gives. *)
Theorem toggle_idempotent (s : Weeks.State) (d : Days.State)
    (h w : Z) (v : bool) :
  Weeks.handleCheckChange h w v (Weeks.handleCheckChange h w v s)
  = Weeks.handleCheckChange h w v s
  ∧ Days.handleCheckChange h w v (Days.handleCheckChange h w v d)
    = Days.handleCheckChange h w v d.
Proof.
  unfold Weeks.handleCheckChange, Days.handleCheckChange. simpl.
  rewrite !lookup_insert_eq. simpl. by rewrite !insert_insert_eq.
Qed.

(** C7: changing the habit count or the week count leaves the completion
    mapping as it is, so after a count has been changed and changed again
    (decreased, then increased) every cell reads as it did before. *)
Theorem counts_leave_cells (s : Weeks.State) (d : Days.State)
    (m n h w : Z) :
  Weeks.checkedState (Weeks.handleHabitsChange n s) = Weeks.checkedState s
  ∧ Weeks.checkedState (Weeks.handleWeeksChange n s) = Weeks.checkedState s
  ∧ Days.checkedState (Days.handleHabitsChange n d) = Days.checkedState d
  ∧ Weeks.isChecked (Weeks.handleHabitsChange n (Weeks.handleHabitsChange m s))
      h w = Weeks.isChecked s h w
  ∧ Weeks.isChecked (Weeks.handleWeeksChange n (Weeks.handleWeeksChange m s))
      h w = Weeks.isChecked s h w
  ∧ Days.isChecked (Days.handleHabitsChange n (Days.handleHabitsChange m d))
      h w = Days.isChecked d h w.
Proof. done. Qed.

(** C8: in the weeks variant the initial state (3 habits, 4 weeks, nothing
    checked) has completed 0, remaining 12, percentage 0; after checking the
    cells (0,0) and (1,2) it has completed 2, remaining 10, percentage 17. *)
Theorem weeks_scenario :
  Weeks.habits Weeks.initial = 3
  ∧ Weeks.weeks Weeks.initial = 4
  ∧ Weeks.checkedState Weeks.initial = ∅
  ∧ Weeks.DerivedStats Weeks.initial
    = {| completed := 0; remaining := 12; percentage := 0 |}
  ∧ Weeks.DerivedStats
      (Weeks.handleCheckChange 1 2 true
         (Weeks.handleCheckChange 0 0 true Weeks.initial))
    = {| completed := 2; remaining := 10; percentage := 17 |}.
Proof. repeat split; vm_compute; reflexivity. Qed.

(** C4: [handleHabitsChange n] never changes or removes an entry of the list
    of names.  The new list is the old one followed by the generated names
    ["Habit k"] for the slots [k] from the old length plus one up to the
    clamped count (none when the count does not exceed the length, so a
    decrease leaves the list as it is); raising the count to 6 and lowering it
    to 3 again leaves every earlier name in place, from the initial state
    those of habits 0 to 2. *)
Theorem habit_names_only_grow (n : Z) (s : Weeks.State) (d : Days.State) :
  Weeks.habitNames (Weeks.handleHabitsChange n s)
  = Weeks.habitNames s
      ++ ((λ k, Some (JS.habit_label k))
            <$> seqZ (Z.of_nat (length (Weeks.habitNames s)) + 1)
                     (clamp 1 10 n - Z.of_nat (length (Weeks.habitNames s))))
  ∧ Days.habitNames (Days.handleHabitsChange n d)
    = Days.habitNames d
        ++ ((λ k, Some (JS.habit_label k))
              <$> seqZ (Z.of_nat (length (Days.habitNames d)) + 1)
                       (clamp 1 10 n - Z.of_nat (length (Days.habitNames d))))
  ∧ (if clamp 1 10 n <=? Z.of_nat (length (Weeks.habitNames s))
     then Weeks.habitNames (Weeks.handleHabitsChange n s) = Weeks.habitNames s
     else Z.of_nat (length (Weeks.habitNames (Weeks.handleHabitsChange n s)))
          = clamp 1 10 n)
  ∧ take (length (Weeks.habitNames s))
         (Weeks.habitNames (Weeks.handleHabitsChange n s))
    = Weeks.habitNames s
  ∧ take (length (Weeks.habitNames s))
         (Weeks.habitNames
            (Weeks.handleHabitsChange 3 (Weeks.handleHabitsChange 6 s)))
    = Weeks.habitNames s
  ∧ Weeks.habitNames
      (Weeks.handleHabitsChange 3 (Weeks.handleHabitsChange 6 Weeks.initial))
    = [Some "Exercise"; Some "Read"; Some "Meditate";
       Some "Habit 4"; Some "Habit 5"; Some "Habit 6"]
  ∧ Days.habitNames
      (Days.handleHabitsChange 3 (Days.handleHabitsChange 6 Days.initial))
    = [Some "Exercise"; Some "Read"; Some "Meditate";
       Some "Habit 4"; Some "Habit 5"; Some "Habit 6"].
Proof.
  split; [apply habit_names_after|].
  split; [apply (habit_names_after n (Days.as_weeks d))|].
  split.
  { rewrite habit_names_after. case_match.
    - unfold seqZ.
      replace (Z.to_nat (clamp 1 10 n - _)) with 0%nat by lia.
      by rewrite app_nil_r.
    - rewrite length_app, length_fmap, length_seqZ. lia. }
  split; [by rewrite habit_names_after, take_app_length|].
  split; [|split; vm_compute; reflexivity].
  rewrite (habit_names_after 3), (habit_names_after 6), <- app_assoc.
  apply take_app_length.
Qed.

(** C2, at the input where the code departs from it: with 10 habits, 4 weeks
    and 23 of the 40 cells checked, [completed / total × 100] is 57.5, which
    rounds to 58, and the component computes 57. *)
Theorem percentage_at_23_of_40 :
  Weeks.DerivedStats
    (Weeks.run (Weeks.SetHabitCount 10 :: check_cells (take 23 (cells 10 4)))
               Weeks.initial)
  = {| completed := 23; remaining := 17; percentage := 57 |}
  ∧ round_percent 23 (10 * 4) = 58.
Proof. split; vm_compute; reflexivity. Qed.

(** C9: in the days variant the grid always has seven columns, so the total
    is [habits × 7]; with 3 habits (21 cells) and nothing checked, checking
    any 7 distinct cells of the grid gives completed 7, remaining 14 and
    percentage 33. *)
Theorem days_scenario (d : Days.State) (cs : list (Z * Z)) :
  NoDup cs →
  length cs = 7%nat →
  Forall (λ c, 0 ≤ c.1 < 3 ∧ 0 ≤ c.2 < 7) cs →
  length Days.DAYS_OF_WEEK = 7%nat
  ∧ completed (Days.DerivedStats d) + remaining (Days.DerivedStats d)
    = Days.habits d * 7
  ∧ Days.DerivedStats (Days.run (check_days cs) Days.initial)
    = {| completed := 7; remaining := 14; percentage := 33 |}.
Proof.
  intros Hnd Hlen Hin. split; [done|]. split.
  { rewrite days_stats, stats_remaining. simpl. lia. }
  rewrite days_stats, days_run, days_check_cells.
  set (s := Weeks.run _ _).
  assert (completed (Weeks.DerivedStats s) = 7) as Hc.
  { unfold s. rewrite completed_check_cells by done. lia. }
  destruct (check_cells_counts cs (Days.as_weeks Days.initial)) as [Hh Hw].
  fold s in Hh, Hw. simpl in Hh, Hw.
  pose proof (stats_remaining s) as Hr. pose proof (stats_percentage s) as Hp.
  rewrite Hc, Hh, Hw in Hr, Hp.
  destruct (Weeks.DerivedStats s). simpl in *. subst. done.
Qed.

Lemma days_scenario_witness :
  NoDup [(0, 0); (0, 1); (0, 2); (1, 3); (1, 4); (2, 5); (2, 6)]
  ∧ Days.DerivedStats
      (Days.run
         (check_days [(0, 0); (0, 1); (0, 2); (1, 3); (1, 4); (2, 5); (2, 6)])
         Days.initial)
    = {| completed := 7; remaining := 14; percentage := 33 |}.
Proof.
  assert (NoDup [(0, 0); (0, 1); (0, 2); (1, 3); (1, 4); (2, 5); (2, 6)])
    as Hnd.
  { compute_done. }
  split; [exact Hnd|].
  apply (days_scenario Days.initial
           [(0, 0); (0, 1); (0, 2); (1, 3); (1, 4); (2, 5); (2, 6)]).
  - exact Hnd.
  - reflexivity.
  - repeat constructor; simpl; lia.
Defined.

(** C10: in every state reached from the initial one, of either variant,
    [0 ≤ completed ≤ habits × timeSlots], [remaining ≥ 0] and the percentage
    lies in [[0, 100]]; [completed] is the number of checked cells inside the
    grid, and a state that differs only outside the grid (stale entries at
    indices beyond the current counts) has the same derived values. *)
Theorem stats_within_grid
    (ops : list Weeks.Action) (s' : Weeks.State)
    (dops : list Days.Action) (d' : Days.State) :
  same_grid (Weeks.run ops Weeks.initial) s' →
  same_grid (Days.as_weeks (Days.run dops Days.initial)) (Days.as_weeks d') →
  (let s := Weeks.run ops Weeks.initial in
   let st := Weeks.DerivedStats s in
   0 ≤ completed st ≤ Weeks.habits s * Weeks.weeks s
   ∧ 0 ≤ remaining st
   ∧ 0 ≤ percentage st ≤ 100
   ∧ completed st
     = count_set (Weeks.isChecked s) (Weeks.habits s) (Weeks.weeks s)
   ∧ Weeks.DerivedStats s' = st)
  ∧ (let d := Days.run dops Days.initial in
     let st := Days.DerivedStats d in
     0 ≤ completed st ≤ Days.habits d * 7
     ∧ 0 ≤ remaining st
     ∧ 0 ≤ percentage st ≤ 100
     ∧ completed st = count_set (Days.isChecked d) (Days.habits d) 7
     ∧ Days.DerivedStats d' = st).
Proof.
  intros (Hh & Hw & Hcells) (Hdh & _ & Hdcells). split.
  - intros s st.
    pose proof (run_in_bounds ops _ initial_in_bounds) as [Hbh Hbw].
    fold s in Hbh, Hbw.
    pose proof (stats_bounds s ltac:(lia) ltac:(lia)) as (Hc & Hr & Hp).
    fold st in Hc, Hr, Hp.
    split; [exact Hc|]. split; [exact Hr|]. split; [exact Hp|].
    split; [apply stats_completed|by apply stats_ext].
  - intros d st.
    pose proof (days_run_in_bounds dops) as Hbh. fold d in Hbh.
    pose proof (stats_bounds (Days.as_weeks d) ltac:(simpl; lia)
                  ltac:(simpl; lia)) as (Hc & Hr & Hp).
    rewrite <- days_stats in Hc, Hr, Hp. fold st in Hc, Hr, Hp.
    split; [exact Hc|]. split; [exact Hr|]. split; [exact Hp|].
    split; [apply (stats_completed (Days.as_weeks d))|].
    unfold st. rewrite !days_stats. by apply stats_ext.
Qed.

Lemma stats_within_grid_witness :
  same_grid
    (Weeks.run [Weeks.Toggle 0 0 true; Weeks.Toggle 7 9 true;
                Weeks.SetHabitCount 2] Weeks.initial)
    (Weeks.handleCheckChange 5 11 true
       (Weeks.run [Weeks.Toggle 0 0 true; Weeks.Toggle 7 9 true;
                   Weeks.SetHabitCount 2] Weeks.initial))
  ∧ Weeks.DerivedStats
      (Weeks.handleCheckChange 5 11 true
         (Weeks.run [Weeks.Toggle 0 0 true; Weeks.Toggle 7 9 true;
                     Weeks.SetHabitCount 2] Weeks.initial))
    = Weeks.DerivedStats
        (Weeks.run [Weeks.Toggle 0 0 true; Weeks.Toggle 7 9 true;
                    Weeks.SetHabitCount 2] Weeks.initial)
  ∧ Days.DerivedStats
      (Days.handleCheckChange 4 0 true
         (Days.run [Days.Toggle 1 1 true] Days.initial))
    = Days.DerivedStats (Days.run [Days.Toggle 1 1 true] Days.initial).
Proof.
  assert (same_grid
            (Weeks.run [Weeks.Toggle 0 0 true; Weeks.Toggle 7 9 true;
                        Weeks.SetHabitCount 2] Weeks.initial)
            (Weeks.handleCheckChange 5 11 true
               (Weeks.run [Weeks.Toggle 0 0 true; Weeks.Toggle 7 9 true;
                           Weeks.SetHabitCount 2] Weeks.initial))) as Hweeks.
  { split; [reflexivity|]. split; [reflexivity|].
    intros h w Hh Hw. cbn in Hh, Hw.
    assert (h = 0 ∨ h = 1) as [-> | ->] by lia;
      assert (w = 0 ∨ w = 1 ∨ w = 2 ∨ w = 3) as [-> | [-> | [-> | ->]]]
        by lia;
      vm_compute; reflexivity. }
  assert (same_grid
            (Days.as_weeks (Days.run [Days.Toggle 1 1 true] Days.initial))
            (Days.as_weeks
               (Days.handleCheckChange 4 0 true
                  (Days.run [Days.Toggle 1 1 true] Days.initial)))) as Hdays.
  { split; [reflexivity|]. split; [reflexivity|].
    intros h w Hh Hw. cbn in Hh, Hw.
    assert (h = 0 ∨ h = 1 ∨ h = 2) as [-> | [-> | ->]] by lia;
      assert (w = 0 ∨ w = 1 ∨ w = 2 ∨ w = 3 ∨ w = 4 ∨ w = 5 ∨ w = 6)
        as [-> | [-> | [-> | [-> | [-> | [-> | ->]]]]]] by lia;
      vm_compute; reflexivity. }
  split; [exact Hweeks|].
  pose proof (stats_within_grid _ _ _ _ Hweeks Hdays) as [Hw Hd].
  split; [apply Hw|apply Hd].
Defined.

(** * Further properties of the component *)

(** ** Cells *)

Lemma days_handleCheckChange (d : Days.State) (h w : Z) (v : bool) :
  Days.as_weeks (Days.handleCheckChange h w v d)
  = Weeks.handleCheckChange h w v (Days.as_weeks d).
Proof. done. Qed.

(** X1: reading a cell after [handleCheckChange] gives the value just
    written when it is the written cell, and what it gave before for every
    other cell, whether or not the row existed in the mapping. *)
Theorem read_after_write (s : Weeks.State) (d : Days.State)
    (h w h' w' : Z) (v : bool) :
  Weeks.isChecked (Weeks.handleCheckChange h w v s) h' w'
  = (if decide (h = h' ∧ w = w') then v else Weeks.isChecked s h' w')
  ∧ Days.isChecked (Days.handleCheckChange h w v d) h' w'
    = (if decide (h = h' ∧ w = w') then v else Days.isChecked d h' w').
Proof.
  split; [apply isChecked_toggle|].
  rewrite !days_isChecked, days_handleCheckChange. apply isChecked_toggle.
Qed.

Lemma checkedState_toggle_toggle (cs : gmap Z (gmap Z bool))
    (h1 w1 h2 w2 : Z) (v1 v2 : bool) :
  (h1, w1) ≠ (h2, w2) →
  let put h w v (m : gmap Z (gmap Z bool)) :=
    <[h := <[w := v]> (default ∅ (m !! h))]> m in
  put h1 w1 v1 (put h2 w2 v2 cs) = put h2 w2 v2 (put h1 w1 v1 cs).
Proof.
  intros Hne put. unfold put.
  destruct (decide (h1 = h2)) as [<-|Hh].
  - assert (w1 ≠ w2) as Hw by congruence.
    rewrite !lookup_insert_eq. simpl. rewrite !insert_insert_eq.
    f_equal. apply insert_insert_ne. done.
  - rewrite !lookup_insert_ne by done.
    apply insert_insert_ne. done.
Qed.

(** X2: writes to two different cells commute: the state does not depend
    on the order in which two boxes were set. *)
Theorem toggles_commute (s : Weeks.State) (h1 w1 h2 w2 : Z) (v1 v2 : bool) :
  (h1, w1) ≠ (h2, w2) →
  Weeks.handleCheckChange h1 w1 v1 (Weeks.handleCheckChange h2 w2 v2 s)
  = Weeks.handleCheckChange h2 w2 v2 (Weeks.handleCheckChange h1 w1 v1 s).
Proof.
  intros Hne. unfold Weeks.handleCheckChange. simpl. f_equal.
  by apply checkedState_toggle_toggle.
Qed.

Lemma toggles_commute_witness :
  Weeks.handleCheckChange 0 1 true
    (Weeks.handleCheckChange 0 2 false Weeks.initial)
  = Weeks.handleCheckChange 0 2 false
      (Weeks.handleCheckChange 0 1 true Weeks.initial).
Proof. apply (toggles_commute Weeks.initial 0 1 0 2 true false). congruence. Defined.

(** X3: of two writes to one cell the later one wins: the state is the one
    the later write alone gives. *)
Theorem last_write_wins (s : Weeks.State) (d : Days.State)
    (h w : Z) (v1 v2 : bool) :
  Weeks.handleCheckChange h w v2 (Weeks.handleCheckChange h w v1 s)
  = Weeks.handleCheckChange h w v2 s
  ∧ Days.handleCheckChange h w v2 (Days.handleCheckChange h w v1 d)
    = Days.handleCheckChange h w v2 d.
Proof.
  unfold Weeks.handleCheckChange, Days.handleCheckChange. simpl.
  rewrite !lookup_insert_eq. simpl. by rewrite !insert_insert_eq.
Qed.

(** ** One more or one fewer completed cell *)

Lemma filter_length_update `{EqDecision A} (p q : A → bool) (x : A)
    (l : list A) :
  NoDup l → x ∈ l →
  (∀ y, y ∈ l → y ≠ x → p y = q y) →
  Z.of_nat (length (filter (λ y, p y = true) l)) - Z.b2z (p x)
  = Z.of_nat (length (filter (λ y, q y = true) l)) - Z.b2z (q x).
Proof.
  induction l as [|y l IH]; intros Hnd Hx Hpq.
  - by apply elem_of_nil in Hx.
  - apply NoDup_cons in Hnd as [Hy Hnd]. rewrite !filter_cons.
    destruct (decide (y = x)) as [->|Hne].
    + rewrite (filter_ext_in (λ y, p y = true) (λ y, q y = true) l).
      * destruct (p x), (q x); repeat case_decide; try done; simpl; lia.
      * intros z Hz. rewrite Hpq; [done|by right|]. intros ->. done.
    + apply elem_of_cons in Hx as [Hx|Hx]; [congruence|].
      assert (p y = q y) as Hy' by (apply Hpq; [by left|done]).
      specialize (IH Hnd Hx ltac:(intros z Hz; apply Hpq; by right)).
      rewrite Hy'. case_decide; simpl length; lia.
Qed.

Lemma completed_toggle (s : Weeks.State) (h w : Z) (v : bool) :
  0 ≤ h < Weeks.habits s → 0 ≤ w < Weeks.weeks s →
  completed (Weeks.DerivedStats (Weeks.handleCheckChange h w v s))
  = completed (Weeks.DerivedStats s) + Z.b2z v
    - Z.b2z (Weeks.isChecked s h w).
Proof.
  intros Hh Hw. rewrite !stats_completed. unfold count_set.
  change (Weeks.habits (Weeks.handleCheckChange h w v s))
    with (Weeks.habits s).
  change (Weeks.weeks (Weeks.handleCheckChange h w v s)) with (Weeks.weeks s).
  pose proof (filter_length_update
    (λ c : Z * Z, Weeks.isChecked (Weeks.handleCheckChange h w v s) c.1 c.2)
    (λ c : Z * Z, Weeks.isChecked s c.1 c.2) (h, w)
    (cells (Weeks.habits s) (Weeks.weeks s))
    (NoDup_cells _ _)) as Hupd.
  cbv beta in Hupd. cbn [fst snd] in Hupd.
  rewrite isChecked_toggle, decide_True in Hupd by done.
  enough (∀ y : Z * Z, y ∈ cells (Weeks.habits s) (Weeks.weeks s) →
            y ≠ (h, w) →
            Weeks.isChecked (Weeks.handleCheckChange h w v s) y.1 y.2
            = Weeks.isChecked s y.1 y.2) as Hagree.
  { specialize (Hupd ltac:(by apply elem_of_cells) Hagree). lia. }
  intros [h' w'] _ Hne. simpl. rewrite isChecked_toggle, decide_False; [done|].
  intros [-> ->]. done.
Qed.

(** X4: setting a cell inside the grid changes [completed] by exactly that
    cell: plus one when an unset cell is set, minus one when a set cell is
    cleared, nothing when the value stays; [remaining] moves the other
    way. *)
Theorem toggle_counts_one_cell (s : Weeks.State) (h w : Z) (v : bool) :
  0 ≤ h < Weeks.habits s → 0 ≤ w < Weeks.weeks s →
  completed (Weeks.DerivedStats (Weeks.handleCheckChange h w v s))
  = completed (Weeks.DerivedStats s) + Z.b2z v - Z.b2z (Weeks.isChecked s h w)
  ∧ remaining (Weeks.DerivedStats (Weeks.handleCheckChange h w v s))
    = remaining (Weeks.DerivedStats s) - Z.b2z v
      + Z.b2z (Weeks.isChecked s h w).
Proof.
  intros Hh Hw. pose proof (completed_toggle s h w v Hh Hw) as Hc.
  split; [done|]. rewrite !stats_remaining, Hc. simpl. lia.
Qed.

Lemma toggle_counts_one_cell_witness :
  completed (Weeks.DerivedStats (Weeks.handleCheckChange 2 3 true Weeks.initial))
  = 1
  ∧ remaining
      (Weeks.DerivedStats (Weeks.handleCheckChange 2 3 true Weeks.initial))
    = 11.
Proof.
  apply (toggle_counts_one_cell Weeks.initial 2 3 true); simpl; lia.
Defined.

(** ** The percentage at its ends and from one count to the next *)

Lemma percent_ends_table : forallb percent_ends_row_ok (seqZ 1 120) = true.
Proof. vm_compute. reflexivity. Qed.

Lemma percent_ends_checked (c t : Z) :
  1 ≤ t ≤ 120 → 0 ≤ c ≤ t → percent_ends_ok t c = true.
Proof.
  intros Ht Hc. pose proof percent_ends_table as Htab.
  rewrite forallb_forall in Htab.
  assert (percent_ends_row_ok t = true) as Hrow.
  { apply Htab, list_elem_of_In, elem_of_seqZ. lia. }
  unfold percent_ends_row_ok in Hrow. rewrite forallb_forall in Hrow.
  apply Hrow, list_elem_of_In, elem_of_seqZ. lia.
Qed.

Lemma percent_of_ends (c t : Z) :
  1 ≤ t ≤ 120 → 0 ≤ c ≤ t →
  (percent_of c t = 100 ↔ c = t) ∧ (percent_of c t = 0 ↔ c = 0).
Proof.
  intros Ht Hc. pose proof (percent_ends_checked c t Ht Hc) as Hok.
  unfold percent_ends_ok in Hok. cbv zeta in Hok.
  apply andb_prop in Hok as [Hok _]. apply andb_prop in Hok as [H100 H0].
  apply Bool.eqb_prop in H100, H0. split.
  - rewrite <- !Z.eqb_eq. by rewrite H100.
  - rewrite <- !Z.eqb_eq. by rewrite H0.
Qed.

Lemma percent_of_next (c t : Z) :
  1 ≤ t ≤ 120 → 0 ≤ c < t → percent_of c t ≤ percent_of (c + 1) t.
Proof.
  intros Ht Hc. pose proof (percent_ends_checked c t Ht ltac:(lia)) as Hok.
  unfold percent_ends_ok in Hok. cbv zeta in Hok.
  apply andb_prop in Hok as [_ Hok].
  destruct (c <? t) eqn:Hlt; lia.
Qed.

Lemma stats_ends (s : Weeks.State) :
  in_bounds s →
  (percentage (Weeks.DerivedStats s) = 100
   ↔ completed (Weeks.DerivedStats s) = Weeks.habits s * Weeks.weeks s)
  ∧ (percentage (Weeks.DerivedStats s) = 0
     ↔ completed (Weeks.DerivedStats s) = 0).
Proof.
  intros [Hh Hw]. rewrite stats_percentage.
  pose proof (stats_bounds s ltac:(lia) ltac:(lia)) as (Hc & _).
  apply percent_of_ends; [nia|done].
Qed.

(** X5: in every state reached from the initial one, of either variant,
    the percentage shown is 100 exactly when every cell of the grid is
    completed and 0 exactly when none is. *)
Theorem percentage_ends (ops : list Weeks.Action) (dops : list Days.Action) :
  (percentage (Weeks.DerivedStats (Weeks.run ops Weeks.initial)) = 100
   ↔ remaining (Weeks.DerivedStats (Weeks.run ops Weeks.initial)) = 0)
  ∧ (percentage (Weeks.DerivedStats (Weeks.run ops Weeks.initial)) = 0
     ↔ completed (Weeks.DerivedStats (Weeks.run ops Weeks.initial)) = 0)
  ∧ (percentage (Days.DerivedStats (Days.run dops Days.initial)) = 100
     ↔ remaining (Days.DerivedStats (Days.run dops Days.initial)) = 0)
  ∧ (percentage (Days.DerivedStats (Days.run dops Days.initial)) = 0
     ↔ completed (Days.DerivedStats (Days.run dops Days.initial)) = 0).
Proof.
  pose proof (stats_ends _ (run_in_bounds ops _ initial_in_bounds))
    as [H100 H0].
  assert (in_bounds (Days.as_weeks (Days.run dops Days.initial))) as Hd.
  { pose proof (days_run_in_bounds dops). unfold in_bounds. simpl. lia. }
  pose proof (stats_ends _ Hd) as [Hd100 Hd0].
  rewrite !days_stats, !stats_remaining.
  split; [rewrite H100; lia|]. split; [done|].
  split; [rewrite Hd100; lia|done].
Qed.

(** ** Ticking never lowers, clearing never raises *)

Lemma stats_toggle_outside (s : Weeks.State) (h w : Z) (v : bool) :
  ¬ (0 ≤ h < Weeks.habits s ∧ 0 ≤ w < Weeks.weeks s) →
  Weeks.DerivedStats (Weeks.handleCheckChange h w v s) = Weeks.DerivedStats s.
Proof.
  intros Hout. apply stats_ext; [done..|].
  intros h' w' Hh' Hw'. rewrite isChecked_toggle, decide_False; [done|].
  intros [-> ->]. tauto.
Qed.

Lemma stats_toggle_mono (s : Weeks.State) (h w : Z) :
  in_bounds s →
  completed (Weeks.DerivedStats s)
    ≤ completed (Weeks.DerivedStats (Weeks.handleCheckChange h w true s))
  ∧ percentage (Weeks.DerivedStats s)
    ≤ percentage (Weeks.DerivedStats (Weeks.handleCheckChange h w true s))
  ∧ completed (Weeks.DerivedStats (Weeks.handleCheckChange h w false s))
    ≤ completed (Weeks.DerivedStats s)
  ∧ percentage (Weeks.DerivedStats (Weeks.handleCheckChange h w false s))
    ≤ percentage (Weeks.DerivedStats s).
Proof.
  intros Hb.
  destruct (decide (0 ≤ h < Weeks.habits s ∧ 0 ≤ w < Weeks.weeks s))
    as [[Hh Hw]|Hout]; [|rewrite !stats_toggle_outside by done; lia].
  pose proof (completed_toggle s h w true Hh Hw) as Ht.
  pose proof (completed_toggle s h w false Hh Hw) as Hf.
  assert (∀ v, in_bounds (Weeks.handleCheckChange h w v s)) as Hb' by done.
  assert (∀ s0, in_bounds s0 →
            0 ≤ completed (Weeks.DerivedStats s0)
              ≤ Weeks.habits s0 * Weeks.weeks s0
            ∧ 1 ≤ Weeks.habits s0 * Weeks.weeks s0 ≤ 120) as Hrange.
  { intros s0 [Hh0 Hw0].
    pose proof (stats_bounds s0 ltac:(lia) ltac:(lia)) as (Hc & _).
    split; [done|nia]. }
  destruct (Hrange _ Hb) as [Hc Htot].
  destruct (Hrange _ (Hb' true)) as [Hct _].
  destruct (Hrange _ (Hb' false)) as [Hcf _].
  rewrite !stats_percentage.
  change (Weeks.habits (Weeks.handleCheckChange h w true s))
    with (Weeks.habits s) in *.
  change (Weeks.weeks (Weeks.handleCheckChange h w true s))
    with (Weeks.weeks s) in *.
  change (Weeks.habits (Weeks.handleCheckChange h w false s))
    with (Weeks.habits s) in *.
  change (Weeks.weeks (Weeks.handleCheckChange h w false s))
    with (Weeks.weeks s) in *.
  revert Ht Hf Hc Hct Hcf Htot.
  generalize (completed (Weeks.DerivedStats s)) as c.
  generalize
    (completed (Weeks.DerivedStats (Weeks.handleCheckChange h w true s)))
    as ct.
  generalize
    (completed (Weeks.DerivedStats (Weeks.handleCheckChange h w false s)))
    as cf.
  generalize (Weeks.habits s * Weeks.weeks s) as t.
  intros t cf ct c -> -> Hc Hct Hcf Htot.
  destruct (Weeks.isChecked s h w); cbn [Z.b2z] in *.
  - replace (c + 1 - 1) with c in * by lia.
    replace (c + 0 - 1) with (c - 1) in * by lia.
    split; [lia|]. split; [lia|]. split; [lia|].
    replace c with (c - 1 + 1) at 2 by lia.
    apply percent_of_next; [done|lia].
  - replace (c + 1 - 0) with (c + 1) in * by lia.
    replace (c + 0 - 0) with c in * by lia.
    split; [lia|]. split; [apply percent_of_next; [done|lia]|].
    split; lia.
Qed.

(** X6: in every state reached from the initial one, ticking a box, any
    box, never lowers the completed count or the percentage, and clearing
    one never raises them. *)
Theorem ticking_is_monotone (ops : list Weeks.Action) (h w : Z) :
  completed (Weeks.DerivedStats (Weeks.run ops Weeks.initial))
    ≤ completed (Weeks.DerivedStats
                   (Weeks.handleCheckChange h w true
                      (Weeks.run ops Weeks.initial)))
  ∧ percentage (Weeks.DerivedStats (Weeks.run ops Weeks.initial))
    ≤ percentage (Weeks.DerivedStats
                    (Weeks.handleCheckChange h w true
                       (Weeks.run ops Weeks.initial)))
  ∧ completed (Weeks.DerivedStats
                 (Weeks.handleCheckChange h w false
                    (Weeks.run ops Weeks.initial)))
    ≤ completed (Weeks.DerivedStats (Weeks.run ops Weeks.initial))
  ∧ percentage (Weeks.DerivedStats
                  (Weeks.handleCheckChange h w false
                     (Weeks.run ops Weeks.initial)))
    ≤ percentage (Weeks.DerivedStats (Weeks.run ops Weeks.initial)).
Proof. apply stats_toggle_mono, run_in_bounds, initial_in_bounds. Qed.

(** ** What every run keeps *)

Lemma names_length_step (s : Weeks.State) (a : Weeks.Action) :
  Weeks.habits s ≤ Z.of_nat (length (Weeks.habitNames s)) →
  Weeks.habits (Weeks.step s a)
    ≤ Z.of_nat (length (Weeks.habitNames (Weeks.step s a))).
Proof.
  intros Hlen. destruct a as [n|n|i name|h w v]; try done.
  - change (Weeks.step s (Weeks.SetHabitCount n))
      with (Weeks.handleHabitsChange n s).
    rewrite habit_names_after, length_app, length_fmap, length_seqZ.
    assert (Weeks.habits (Weeks.handleHabitsChange n s) = clamp 1 10 n) as ->.
    { unfold clamp. simpl. repeat case_match; lia. }
    lia.
  - simpl. case_match.
    + by rewrite length_insert.
    + rewrite !length_app. lia.
Qed.

Lemma names_length_run (ops : list Weeks.Action) (s : Weeks.State) :
  Weeks.habits s ≤ Z.of_nat (length (Weeks.habitNames s)) →
  Weeks.habits (Weeks.run ops s)
    ≤ Z.of_nat (length (Weeks.habitNames (Weeks.run ops s))).
Proof.
  revert s. induction ops as [|a ops IH]; intros s Hs; [done|].
  apply IH, names_length_step, Hs.
Qed.

(** X7: every run of edits from the initial state, in either variant, keeps
    the habit count in [[1, 10]] and the week count in [[1, 12]], and keeps
    at least as many entries in [habitNames] as there are habits. *)
Theorem counts_stay_in_bounds
    (ops : list Weeks.Action) (dops : list Days.Action) :
  1 ≤ Weeks.habits (Weeks.run ops Weeks.initial) ≤ 10
  ∧ 1 ≤ Weeks.weeks (Weeks.run ops Weeks.initial) ≤ 12
  ∧ Weeks.habits (Weeks.run ops Weeks.initial)
    ≤ Z.of_nat (length (Weeks.habitNames (Weeks.run ops Weeks.initial)))
  ∧ 1 ≤ Days.habits (Days.run dops Days.initial) ≤ 10
  ∧ Days.habits (Days.run dops Days.initial)
    ≤ Z.of_nat (length (Days.habitNames (Days.run dops Days.initial))).
Proof.
  pose proof (run_in_bounds ops _ initial_in_bounds) as [Hh Hw].
  split; [done|]. split; [done|].
  split; [apply names_length_run; simpl; lia|].
  split; [apply days_run_in_bounds|].
  pose proof (names_length_run (days_action <$> dops)
                (Days.as_weeks Days.initial) ltac:(simpl; lia)) as Hd.
  by rewrite <- days_run in Hd.
Qed.

(** ** Renaming a habit *)

Lemma rename_lookup (s : Weeks.State) (index j : nat) (name : string) :
  Weeks.habitNames (Weeks.handleHabitNameChange index name s) !! j
  = if decide (j = index) then Some (Some name)
    else if decide (length (Weeks.habitNames s) ≤ j < index)%nat
         then Some None
         else Weeks.habitNames s !! j.
Proof.
  unfold Weeks.handleHabitNameChange. cbn [Weeks.habitNames].
  destruct (index <? length (Weeks.habitNames s))%nat eqn:Hin.
  - apply Nat.ltb_lt in Hin. rewrite list_lookup_insert.
    repeat case_decide; try done; lia.
  - apply Nat.ltb_ge in Hin.
    destruct (decide (j < length (Weeks.habitNames s))%nat) as [Hj|Hj].
    + rewrite lookup_app_l by done. repeat case_decide; try done; lia.
    + rewrite lookup_app_r by lia.
      destruct (decide (j < index)%nat) as [Hji|Hji].
      * rewrite lookup_app_l by (rewrite length_replicate; lia).
        rewrite lookup_replicate_2 by lia.
        repeat case_decide; try done; lia.
      * rewrite lookup_app_r by (rewrite length_replicate; lia).
        rewrite length_replicate. case_decide as Hd.
        -- subst j.
           by replace (index - length (Weeks.habitNames s)
                       - (index - length (Weeks.habitNames s)))%nat
             with 0%nat by lia.
        -- rewrite decide_False by lia.
           rewrite (lookup_ge_None_2 (Weeks.habitNames s)) by lia.
           apply lookup_ge_None_2. simpl. lia.
Qed.

Lemma rename_length (s : Weeks.State) (index : nat) (name : string) :
  length (Weeks.habitNames (Weeks.handleHabitNameChange index name s))
  = Nat.max (length (Weeks.habitNames s)) (S index).
Proof.
  unfold Weeks.handleHabitNameChange. cbn [Weeks.habitNames]. case_match.
  - rewrite length_insert. apply Nat.ltb_lt in H. lia.
  - apply Nat.ltb_ge in H. rewrite !length_app, length_replicate. simpl. lia.
Qed.

Lemma days_handleHabitNameChange (d : Days.State) (i : nat) (name : string) :
  Days.as_weeks (Days.handleHabitNameChange i name d)
  = Weeks.handleHabitNameChange i name (Days.as_weeks d).
Proof. done. Qed.

(** X8: [handleHabitNameChange index name] stores [name] at [index] whatever
    the index: inside the list only that entry changes and the length stays;
    beyond the end the list grows to [index + 1] entries, the positions
    skipped being holes. *)
Theorem rename_writes_one_entry (s : Weeks.State) (d : Days.State)
    (index j : nat) (name : string) :
  Weeks.habitNames (Weeks.handleHabitNameChange index name s) !! j
  = (if decide (j = index) then Some (Some name)
     else if decide (length (Weeks.habitNames s) ≤ j < index)%nat
          then Some None
          else Weeks.habitNames s !! j)
  ∧ length (Weeks.habitNames (Weeks.handleHabitNameChange index name s))
    = Nat.max (length (Weeks.habitNames s)) (S index)
  ∧ Days.habitNames (Days.handleHabitNameChange index name d) !! j
    = (if decide (j = index) then Some (Some name)
       else if decide (length (Days.habitNames d) ≤ j < index)%nat
            then Some None
            else Days.habitNames d !! j)
  ∧ length (Days.habitNames (Days.handleHabitNameChange index name d))
    = Nat.max (length (Days.habitNames d)) (S index).
Proof.
  split; [apply rename_lookup|]. split; [apply rename_length|].
  split.
  - apply (rename_lookup (Days.as_weeks d)).
  - apply (rename_length (Days.as_weeks d)).
Qed.

Lemma step_keeps_name (s : Weeks.State) (a : Weeks.Action) (i : nat)
    (x : option string) :
  ¬ renames i a →
  Weeks.habitNames s !! i = Some x →
  Weeks.habitNames (Weeks.step s a) !! i = Some x.
Proof.
  intros Hnot Hx. destruct a as [n|n|j name|h w v]; try done.
  - change (Weeks.step s (Weeks.SetHabitCount n))
      with (Weeks.handleHabitsChange n s).
    rewrite habit_names_after. by apply lookup_app_l_Some.
  - simpl in Hnot.
    change (Weeks.step s (Weeks.RenameHabit j name))
      with (Weeks.handleHabitNameChange j name s).
    rewrite rename_lookup. rewrite decide_False by congruence.
    apply lookup_lt_Some in Hx as Hlt. rewrite decide_False by lia. done.
Qed.

(** X9: a name given to a habit stays at its index through every later
    edit that is not a rename of that same habit: changes of the counts (a
    decrease, an increase), renames of other habits and toggles. *)
Theorem custom_name_survives (s : Weeks.State) (i : nat) (name : string)
    (ops : list Weeks.Action) :
  Forall (λ a, ¬ renames i a) ops →
  Weeks.habitNames (Weeks.run ops (Weeks.handleHabitNameChange i name s)) !! i
  = Some (Some name).
Proof.
  intros Hops.
  assert (Weeks.habitNames (Weeks.handleHabitNameChange i name s) !! i
          = Some (Some name)) as Hi.
  { by rewrite rename_lookup, decide_True. }
  revert Hi. generalize (Weeks.handleHabitNameChange i name s) as s0.
  induction Hops as [|a ops Ha _ IH]; intros s0 Hi; [done|].
  apply IH, step_keeps_name; done.
Qed.

Lemma custom_name_survives_witness :
  Weeks.habitNames
    (Weeks.run [Weeks.SetHabitCount 1; Weeks.RenameHabit 0 "Run";
                Weeks.Toggle 1 1 true; Weeks.SetHabitCount 6]
       (Weeks.handleHabitNameChange 1 "Write" Weeks.initial)) !! 1%nat
  = Some (Some "Write").
Proof.
  apply (custom_name_survives Weeks.initial 1 "Write").
  repeat constructor; simpl; try tauto; lia.
Defined.

(** ** Changing the habit count more than once *)

Lemma clamp_max (lo hi m n : Z) :
  clamp lo hi (Z.max m n) = Z.max (clamp lo hi m) (clamp lo hi n)
  ∨ hi < lo.
Proof. unfold clamp. repeat case_match; lia. Qed.

Lemma habit_names_twice (m n : Z) (s : Weeks.State) :
  Weeks.habitNames (Weeks.handleHabitsChange n (Weeks.handleHabitsChange m s))
  = Weeks.habitNames (Weeks.handleHabitsChange (Z.max m n) s).
Proof.
  rewrite (habit_names_after n), !(habit_names_after _ s).
  rewrite length_app, length_fmap, length_seqZ, <- app_assoc, <- fmap_app.
  do 2 f_equal.
  destruct (clamp_max 1 10 m n) as [->|?]; [|lia].
  set (len := Z.of_nat (length (Weeks.habitNames s))).
  set (a := clamp 1 10 m). set (b := clamp 1 10 n).
  rewrite Nat2Z.inj_add.
  destruct (decide (a ≤ len)) as [Ha|Ha].
  - rewrite (seqZ_nil _ (a - len)) by lia.
    replace (Z.to_nat (a - len)) with 0%nat by lia.
    rewrite app_nil_l, Z.add_0_r.
    destruct (decide (b ≤ len)) as [Hb|Hb].
    + by rewrite !seqZ_nil by lia.
    + f_equal. lia.
  - rewrite Z2Nat.id by lia.
    destruct (decide (b ≤ a)) as [Hb|Hb].
    + rewrite (seqZ_nil _ (b - _)) by lia. rewrite app_nil_r. f_equal. lia.
    + replace (Z.max a b - len) with ((a - len) + (b - a)) by lia.
      rewrite seqZ_app by lia. do 2 f_equal; lia.
Qed.

Lemma weeks_state_eq (s1 s2 : Weeks.State) :
  Weeks.weeks s1 = Weeks.weeks s2 →
  Weeks.habits s1 = Weeks.habits s2 →
  Weeks.habitNames s1 = Weeks.habitNames s2 →
  Weeks.checkedState s1 = Weeks.checkedState s2 →
  s1 = s2.
Proof. destruct s1, s2. simpl. by intros -> -> -> ->. Qed.

(** X10: two changes of the habit count in a row leave the names that one
    change to the larger of the two values leaves, and the count of the
    second; in particular repeating a change does nothing more. *)
Theorem habit_count_changes_compose (m n : Z) (s : Weeks.State)
    (d : Days.State) :
  Weeks.habitNames (Weeks.handleHabitsChange n (Weeks.handleHabitsChange m s))
  = Weeks.habitNames (Weeks.handleHabitsChange (Z.max m n) s)
  ∧ Weeks.habits (Weeks.handleHabitsChange n (Weeks.handleHabitsChange m s))
    = clamp 1 10 n
  ∧ Weeks.handleHabitsChange n (Weeks.handleHabitsChange n s)
    = Weeks.handleHabitsChange n s
  ∧ Days.habitNames (Days.handleHabitsChange n (Days.handleHabitsChange m d))
    = Days.habitNames (Days.handleHabitsChange (Z.max m n) d)
  ∧ Days.handleHabitsChange n (Days.handleHabitsChange n d)
    = Days.handleHabitsChange n d.
Proof.
  assert (∀ s0, Weeks.handleHabitsChange n (Weeks.handleHabitsChange n s0)
                = Weeks.handleHabitsChange n s0) as Hidem.
  { intros s0. apply weeks_state_eq; try done.
    by rewrite habit_names_twice, Z.max_id. }
  split; [apply habit_names_twice|].
  split; [unfold clamp; simpl; repeat case_match; lia|].
  split; [apply Hidem|].
  split; [apply (habit_names_twice m n (Days.as_weeks d))|].
  pose proof (Hidem (Days.as_weeks d)) as Hd.
  destruct d as [dh dn dc]. unfold Days.handleHabitsChange. simpl.
  injection Hd as Hnames. by rewrite Hnames.
Qed.

(** X11: renaming a habit whose entry exists and changing the habit count
    can be done in either order. *)
Theorem rename_commutes_with_count (s : Weeks.State) (i : nat)
    (name : string) (n : Z) :
  (i < length (Weeks.habitNames s))%nat →
  Weeks.handleHabitsChange n (Weeks.handleHabitNameChange i name s)
  = Weeks.handleHabitNameChange i name (Weeks.handleHabitsChange n s).
Proof.
  intros Hi. apply weeks_state_eq; try done.
  assert ((i <? length (Weeks.habitNames s))%nat = true) as Hlt
    by by apply Nat.ltb_lt.
  rewrite (habit_names_after n (Weeks.handleHabitNameChange i name s)).
  unfold Weeks.handleHabitNameChange. cbn [Weeks.habitNames].
  rewrite (habit_names_after n s), Hlt, length_insert, length_app.
  assert ((i <? length (Weeks.habitNames s) + length
             ((λ k, Some (JS.habit_label k))
                <$> seqZ (Z.of_nat (length (Weeks.habitNames s)) + 1)
                         (clamp 1 10 n
                          - Z.of_nat (length (Weeks.habitNames s)))))%nat
          = true) as -> by (apply Nat.ltb_lt; lia).
  by rewrite insert_app_l.
Qed.

Lemma rename_commutes_with_count_witness :
  Weeks.handleHabitsChange 5 (Weeks.handleHabitNameChange 2 "Sleep" Weeks.initial)
  = Weeks.handleHabitNameChange 2 "Sleep" (Weeks.handleHabitsChange 5 Weeks.initial).
Proof.
  apply (rename_commutes_with_count Weeks.initial 2 "Sleep" 5). simpl. lia.
Defined.

(** ** States the user can reach through the rendered inputs *)

Lemma ui_reachable_invariant (s : Weeks.State) :
  ui_reachable s →
  in_bounds s
  ∧ Weeks.habits s ≤ Z.of_nat (length (Weeks.habitNames s))
  ∧ Forall is_Some (Weeks.habitNames s)
  ∧ ∀ h w, is_Some (Weeks.checkedState s !! h ≫= λ row, row !! w) →
           0 ≤ h < 10 ∧ 0 ≤ w < 12.
Proof.
  induction 1 as [|s a _ (Hb & Hlen & Hfull & Hkeys) Ha].
  - split; [apply initial_in_bounds|]. split; [simpl; lia|].
    split; [repeat constructor; by eexists|].
    intros h w [b Hb]. simpl in Hb. by rewrite lookup_empty in Hb.
  - split; [by apply step_in_bounds|].
    split; [by apply names_length_step|].
    destruct a as [n|n|i name|h0 w0 v]; simpl in Ha.
    + done.
    + split; [|done].
      change (Weeks.step s (Weeks.SetHabitCount n))
        with (Weeks.handleHabitsChange n s).
      rewrite habit_names_after. apply Forall_app. split; [done|].
      apply Forall_fmap, Forall_true. intros k. by eexists.
    + split; [|done]. simpl.
      assert ((i <? length (Weeks.habitNames s))%nat = true) as ->
        by (apply Nat.ltb_lt; lia).
      apply Forall_insert; [done|by eexists].
    + split; [done|]. intros h w. simpl.
      destruct Hb as [Hbh Hbw].
      destruct (decide (h0 = h)) as [<-|Hne].
      * rewrite lookup_insert_eq. simpl.
        destruct (decide (w0 = w)) as [<-|Hnw]; [lia|].
        rewrite lookup_insert_ne by done. intros Hst. apply Hkeys.
        destruct (Weeks.checkedState s !! h0); [done|].
        simpl in Hst. rewrite lookup_empty in Hst. by destruct Hst.
      * rewrite lookup_insert_ne by done. apply Hkeys.
Qed.

(** X12: in every state the user can reach through the rendered inputs
    (a name input per rendered row, a checkbox per rendered cell), the habit
    names have no hole, there is a name for every rendered row, and the
    completion mapping only holds cells with a habit index below 10 and a
    week index below 12, at most 120 entries. *)
Theorem ui_states_are_tidy (s : Weeks.State) :
  ui_reachable s →
  Forall is_Some (Weeks.habitNames s)
  ∧ Weeks.habits s ≤ Z.of_nat (length (Weeks.habitNames s))
  ∧ ∀ h w, is_Some (Weeks.checkedState s !! h ≫= λ row, row !! w) →
           0 ≤ h < 10 ∧ 0 ≤ w < 12.
Proof.
  intros Hs. destruct (ui_reachable_invariant s Hs) as (_ & ? & ? & ?). done.
Qed.

Lemma ui_states_are_tidy_witness :
  Forall is_Some
    (Weeks.habitNames
       (Weeks.step
          (Weeks.step (Weeks.step Weeks.initial (Weeks.SetHabitCount 5))
             (Weeks.Toggle 4 3 true))
          (Weeks.RenameHabit 4 "Stretch"))).
Proof.
  apply (ui_states_are_tidy
           (Weeks.step
              (Weeks.step (Weeks.step Weeks.initial (Weeks.SetHabitCount 5))
                 (Weeks.Toggle 4 3 true))
              (Weeks.RenameHabit 4 "Stretch"))).
  apply ui_event; [apply ui_event; [apply ui_event; [apply ui_initial|]|]|];
    simpl; lia.
Defined.

(** ** The rendered table against the derived values *)

Lemma filter_true_fmap {A} (g : A → bool) (l : list A) :
  length (filter (λ b, b = true) (g <$> l))
  = length (filter (λ x, g x = true) l).
Proof.
  induction l as [|x l IH]; [done|].
  rewrite fmap_cons, !filter_cons.
  repeat case_decide; try done; simpl; by rewrite IH.
Qed.

Lemma filter_bool_split (l : list bool) :
  (length (filter (λ b, b = true) l) + length (filter (λ b, b = false) l))%nat
  = length l.
Proof.
  induction l as [|b l IH]; [done|].
  rewrite !filter_cons. destruct b; repeat case_decide; try done; simpl; lia.
Qed.

Lemma mjoin_cons {A} (l : list A) (ls : list (list A)) :
  mjoin (l :: ls) = l ++ mjoin ls.
Proof. done. Qed.

Lemma ticked_grid (f : Z → Z → bool) (hs ws : list Z) :
  ticked ((λ h, (λ w, f h w) <$> ws) <$> hs)
  = Z.of_nat (length (filter (λ c : Z * Z, f c.1 c.2 = true)
                             (h ← hs; pair h <$> ws))).
Proof.
  unfold ticked. f_equal.
  induction hs as [|h hs IH]; [done|].
  rewrite fmap_cons, bind_cons, mjoin_cons.
  rewrite !filter_app, !length_app, IH. f_equal.
  by rewrite filter_true_fmap, row_cells_count.
Qed.

Lemma grid_boxes_length (f : Z → Z → bool) (hs ws : list Z) :
  length (mjoin ((λ h, (λ w, f h w) <$> ws) <$> hs))
  = (length hs * length ws)%nat.
Proof.
  induction hs as [|h hs IH]; [done|].
  rewrite fmap_cons, mjoin_cons.
  rewrite length_app, length_fmap, IH. simpl. lia.
Qed.

Lemma weeks_boxes (s : Weeks.State) :
  Weeks.boxes <$> Weeks.tableRows s
  = (λ h, (λ w, Weeks.isChecked s h w) <$> seqZ 0 (Weeks.weeks s))
      <$> seqZ 0 (Weeks.habits s).
Proof. unfold Weeks.tableRows. by rewrite <- list_fmap_compose. Qed.

Lemma days_boxes (d : Days.State) :
  Days.boxes <$> Days.tableRows d
  = Weeks.boxes <$> Weeks.tableRows (Days.as_weeks d).
Proof.
  rewrite weeks_boxes. unfold Days.tableRows.
  by rewrite <- list_fmap_compose.
Qed.

Lemma table_matches_stats (s : Weeks.State) :
  0 ≤ Weeks.habits s → 0 ≤ Weeks.weeks s →
  Weeks.sliceValue <$> Weeks.pieData s
  = [ticked (Weeks.boxes <$> Weeks.tableRows s);
     unticked (Weeks.boxes <$> Weeks.tableRows s)].
Proof.
  intros Hh Hw. rewrite weeks_boxes.
  assert (completed (Weeks.DerivedStats s)
          = ticked ((λ h, (λ w, Weeks.isChecked s h w)
                            <$> seqZ 0 (Weeks.weeks s))
                      <$> seqZ 0 (Weeks.habits s))) as Hc.
  { rewrite ticked_grid. apply stats_completed. }
  unfold Weeks.pieData. cbn [fmap list_fmap Weeks.sliceValue].
  rewrite stats_remaining, Hc. do 2 f_equal.
  unfold ticked, unticked.
  pose proof (filter_bool_split
    (mjoin ((λ h, (λ w, Weeks.isChecked s h w) <$> seqZ 0 (Weeks.weeks s))
              <$> seqZ 0 (Weeks.habits s)))) as Hsplit.
  rewrite grid_boxes_length, !length_seqZ in Hsplit. nia.
Qed.

(** X13: in every state reached from the initial one the table has one row
    per habit and one checkbox per week in each row (seven in the days
    variant), and the chart gets what the table shows: the [Completed] slice
    is the number of ticked checkboxes on screen and the [Remaining] slice
    the number of unticked ones. *)
Theorem chart_matches_table
    (ops : list Weeks.Action) (dops : list Days.Action) :
  Z.of_nat (length (Weeks.tableRows (Weeks.run ops Weeks.initial)))
  = Weeks.habits (Weeks.run ops Weeks.initial)
  ∧ Z.of_nat (length (Weeks.tableHeaders (Weeks.run ops Weeks.initial)))
    = Weeks.weeks (Weeks.run ops Weeks.initial)
  ∧ Forall (λ r, Z.of_nat (length (Weeks.boxes r))
                 = Weeks.weeks (Weeks.run ops Weeks.initial))
           (Weeks.tableRows (Weeks.run ops Weeks.initial))
  ∧ Weeks.sliceValue <$> Weeks.pieData (Weeks.run ops Weeks.initial)
    = [ticked (Weeks.boxes <$> Weeks.tableRows (Weeks.run ops Weeks.initial));
       unticked
         (Weeks.boxes <$> Weeks.tableRows (Weeks.run ops Weeks.initial))]
  ∧ Z.of_nat (length (Days.tableRows (Days.run dops Days.initial)))
    = Days.habits (Days.run dops Days.initial)
  ∧ Forall (λ r, length (Days.boxes r) = length Days.tableHeaders)
           (Days.tableRows (Days.run dops Days.initial))
  ∧ Weeks.sliceValue <$> Days.pieData (Days.run dops Days.initial)
    = [ticked (Days.boxes <$> Days.tableRows (Days.run dops Days.initial));
       unticked (Days.boxes <$> Days.tableRows (Days.run dops Days.initial))].
Proof.
  pose proof (run_in_bounds ops _ initial_in_bounds) as [Hh Hw].
  pose proof (days_run_in_bounds dops) as Hd.
  split; [unfold Weeks.tableRows; rewrite length_fmap, length_seqZ; lia|].
  split; [unfold Weeks.tableHeaders; rewrite length_fmap, length_seqZ; lia|].
  split.
  { unfold Weeks.tableRows. apply Forall_fmap, Forall_true. intros h.
    simpl. rewrite length_fmap, length_seqZ. lia. }
  split; [apply table_matches_stats; lia|].
  split; [unfold Days.tableRows; rewrite length_fmap, length_seqZ; lia|].
  split; [unfold Days.tableRows; by apply Forall_fmap, Forall_true|].
  rewrite days_boxes.
  apply (table_matches_stats (Days.as_weeks (Days.run dops Days.initial)));
    simpl; lia.
Qed.

(** ** The name a row shows *)

Lemma habit_label_not_empty (k : Z) :
  (0 < String.length (JS.habit_label k))%nat.
Proof. unfold JS.habit_label. simpl. lia. Qed.

Lemma displayName_not_empty (s : Weeks.State) (i : nat) :
  (0 < String.length (Weeks.displayName s i))%nat.
Proof.
  unfold Weeks.displayName.
  destruct (Weeks.habitNames s !! i) as [[name|]|];
    try apply habit_label_not_empty.
  case_decide; [apply habit_label_not_empty|].
  destruct name; [done|simpl; lia].
Qed.

Lemma displayName_rename (s : Weeks.State) (i j : nat) (name : string) :
  Weeks.displayName (Weeks.handleHabitNameChange i name s) j
  = if decide (j = i)
    then (if decide (name = "") then JS.habit_label (Z.of_nat i + 1)
          else name)
    else Weeks.displayName s j.
Proof.
  unfold Weeks.displayName. rewrite rename_lookup.
  destruct (decide (j = i)) as [->|Hne]; [done|].
  case_decide as Hhole; [|done].
  by rewrite (lookup_ge_None_2 (Weeks.habitNames s)) by lia.
Qed.

Lemma displayName_count (s : Weeks.State) (n : Z) (i : nat) :
  Weeks.displayName (Weeks.handleHabitsChange n s) i = Weeks.displayName s i.
Proof.
  unfold Weeks.displayName. rewrite habit_names_after, lookup_app.
  destruct (Weeks.habitNames s !! i) as [x|] eqn:Hi; [done|].
  apply lookup_ge_None in Hi.
  rewrite list_lookup_fmap.
  destruct (seqZ _ _ !! _) as [k|] eqn:Hk; [|done].
  apply lookup_seqZ in Hk as [-> _]. cbn [fmap option_fmap option_map].
  assert (Z.of_nat (length (Weeks.habitNames s)) + 1
          + Z.of_nat (i - length (Weeks.habitNames s)) = Z.of_nat i + 1)
    as -> by lia.
  case_decide as Hempty; [|done].
  pose proof (habit_label_not_empty (Z.of_nat i + 1)) as Hlen.
  rewrite Hempty in Hlen. simpl in Hlen. lia.
Qed.

Lemma days_displayName (d : Days.State) (i : nat) :
  Days.displayName d i = Weeks.displayName (Days.as_weeks d) i.
Proof. done. Qed.

(** X14: the name input of a row never shows an empty text: it shows the
    stored name, or ["Habit {i + 1}"] when there is none or it is empty.
    After a rename the renamed row shows the new name (the default label if
    the new name is empty) and every other row shows what it did; a change
    of the habit count changes what no row shows, since a generated name is
    the default label of its row. *)
Theorem shown_names (s : Weeks.State) (d : Days.State) (i j : nat)
    (name : string) (n : Z) :
  (0 < String.length (Weeks.displayName s j))%nat
  ∧ Weeks.displayName (Weeks.handleHabitNameChange i name s) j
    = (if decide (j = i)
       then (if decide (name = "") then JS.habit_label (Z.of_nat i + 1)
             else name)
       else Weeks.displayName s j)
  ∧ Weeks.displayName (Weeks.handleHabitsChange n s) j = Weeks.displayName s j
  ∧ (0 < String.length (Days.displayName d j))%nat
  ∧ Days.displayName (Days.handleHabitNameChange i name d) j
    = (if decide (j = i)
       then (if decide (name = "") then JS.habit_label (Z.of_nat i + 1)
             else name)
       else Days.displayName d j)
  ∧ Days.displayName (Days.handleHabitsChange n d) j = Days.displayName d j.
Proof.
  split; [apply displayName_not_empty|].
  split; [apply displayName_rename|].
  split; [apply displayName_count|].
  rewrite !days_displayName.
  split; [apply displayName_not_empty|].
  split; [apply (displayName_rename (Days.as_weeks d))|].
  apply (displayName_count (Days.as_weeks d)).
Qed.

(** ** The number inputs *)

(** X15: whatever a number input parses to, [NaN] included, the count it
    sets is within its bounds: an integer gives its clamped value, and
    [NaN], like 0, gives 1. *)
Theorem number_inputs (parsed : option Z) (s : Weeks.State) (d : Days.State) :
  Weeks.habits (Weeks.onHabitsInput parsed s)
  = match parsed with Some n => clamp 1 10 n | None => 1 end
  ∧ Weeks.weeks (Weeks.onWeeksInput parsed s)
    = match parsed with Some n => clamp 1 12 n | None => 1 end
  ∧ Days.habits (Days.onHabitsInput parsed d)
    = match parsed with Some n => clamp 1 10 n | None => 1 end
  ∧ 1 ≤ Weeks.habits (Weeks.onHabitsInput parsed s) ≤ 10
  ∧ 1 ≤ Weeks.weeks (Weeks.onWeeksInput parsed s) ≤ 12
  ∧ 1 ≤ Days.habits (Days.onHabitsInput parsed d) ≤ 10.
Proof.
  unfold Weeks.onHabitsInput, Weeks.onWeeksInput, Days.onHabitsInput,
    JS.or_one, clamp.
  destruct parsed as [n|]; simpl; repeat case_match; lia.
Qed.

(** ** Edits of different kinds *)

(** X16: edits of different kinds do not interfere: a change of the week
    count, a change of the habit count and a write to a cell give the same
    state in either order, a rename can be swapped with a week-count change
    or a cell write, and a rename changes none of the derived values. *)
Theorem independent_edits_commute (s : Weeks.State) (m n h w : Z) (v : bool)
    (i : nat) (name : string) :
  Weeks.handleWeeksChange n (Weeks.handleHabitsChange m s)
  = Weeks.handleHabitsChange m (Weeks.handleWeeksChange n s)
  ∧ Weeks.handleWeeksChange n (Weeks.handleCheckChange h w v s)
    = Weeks.handleCheckChange h w v (Weeks.handleWeeksChange n s)
  ∧ Weeks.handleHabitsChange m (Weeks.handleCheckChange h w v s)
    = Weeks.handleCheckChange h w v (Weeks.handleHabitsChange m s)
  ∧ Weeks.handleHabitNameChange i name (Weeks.handleCheckChange h w v s)
    = Weeks.handleCheckChange h w v (Weeks.handleHabitNameChange i name s)
  ∧ Weeks.handleHabitNameChange i name (Weeks.handleWeeksChange n s)
    = Weeks.handleWeeksChange n (Weeks.handleHabitNameChange i name s)
  ∧ Weeks.DerivedStats (Weeks.handleHabitNameChange i name s)
    = Weeks.DerivedStats s.
Proof. done. Qed.

(** ** A fully ticked grid *)

Lemma stats_all_ticked (s : Weeks.State) :
  in_bounds s →
  Weeks.DerivedStats
    (Weeks.run (check_cells (cells (Weeks.habits s) (Weeks.weeks s))) s)
  = {| completed := Weeks.habits s * Weeks.weeks s;
       remaining := 0;
       percentage := 100 |}.
Proof.
  intros Hb. set (cs := cells (Weeks.habits s) (Weeks.weeks s)).
  set (s' := Weeks.run (check_cells cs) s).
  destruct (check_cells_counts cs s) as [Hh Hw]. fold s' in Hh, Hw.
  assert (completed (Weeks.DerivedStats s')
          = Weeks.habits s * Weeks.weeks s) as Hc.
  { rewrite stats_completed, Hh, Hw.
    rewrite (count_set_ext _
      (λ h w, bool_decide (0 ≤ h < Weeks.habits s ∧ 0 ≤ w < Weeks.weeks s))).
    - rewrite (count_set_members _ cs).
      + unfold cs. rewrite cells_length, Nat2Z.inj_mul.
        destruct Hb. lia.
      + apply NoDup_cells.
      + apply Forall_forall. intros [h w] Hin. by apply elem_of_cells.
      + intros h w. unfold cs. by rewrite bool_decide_eq_true, elem_of_cells.
    - intros h w Hhr Hwr. rewrite bool_decide_true by done.
      unfold s'. apply isChecked_check_cells. left. by apply elem_of_cells. }
  assert (in_bounds s') as Hb' by (unfold in_bounds; by rewrite Hh, Hw).
  pose proof (stats_remaining s') as Hr.
  pose proof (proj1 (stats_ends s' Hb')) as H100.
  rewrite Hh, Hw, Hc in Hr. rewrite Hh, Hw in H100.
  apply H100 in Hc as Hp.
  destruct (Weeks.DerivedStats s') as [c r p]. simpl in *. subst.
  f_equal. lia.
Qed.

(** X17: from any state reached from the initial one, ticking every
    checkbox of the grid gives completed equal to the number of cells,
    remaining 0 and percentage 100, in both variants. *)
Theorem all_ticked_is_100
    (ops : list Weeks.Action) (dops : list Days.Action) :
  Weeks.DerivedStats
    (Weeks.run
       (check_cells (cells (Weeks.habits (Weeks.run ops Weeks.initial))
                           (Weeks.weeks (Weeks.run ops Weeks.initial))))
       (Weeks.run ops Weeks.initial))
  = {| completed := Weeks.habits (Weeks.run ops Weeks.initial)
                    * Weeks.weeks (Weeks.run ops Weeks.initial);
       remaining := 0;
       percentage := 100 |}
  ∧ Days.DerivedStats
      (Days.run
         (check_days (cells (Days.habits (Days.run dops Days.initial)) 7))
         (Days.run dops Days.initial))
    = {| completed := Days.habits (Days.run dops Days.initial) * 7;
         remaining := 0;
         percentage := 100 |}.
Proof.
  split; [apply stats_all_ticked, run_in_bounds, initial_in_bounds|].
  rewrite days_stats, days_run, days_check_cells.
  apply (stats_all_ticked (Days.as_weeks (Days.run dops Days.initial))).
  pose proof (days_run_in_bounds dops). unfold in_bounds. simpl. lia.
Qed.

(** ** The percentage against the exactly rounded one *)

(** X18: in every state reached from the initial one the percentage is the
    exactly rounded [completed / total × 100] (a half rounding up), except
    that the weeks variant shows 57 instead of 58 when [completed / total]
    is [23/40]; the days variant, whose totals are multiples of 7 up to 70,
    always shows the exactly rounded value. *)
Theorem percentage_against_exact_rounding
    (ops : list Weeks.Action) (dops : list Days.Action) :
  percentage (Weeks.DerivedStats (Weeks.run ops Weeks.initial))
  = (if 40 * completed (Weeks.DerivedStats (Weeks.run ops Weeks.initial))
        =? 23 * (Weeks.habits (Weeks.run ops Weeks.initial)
                 * Weeks.weeks (Weeks.run ops Weeks.initial))
     then 57
     else round_percent
            (completed (Weeks.DerivedStats (Weeks.run ops Weeks.initial)))
            (Weeks.habits (Weeks.run ops Weeks.initial)
             * Weeks.weeks (Weeks.run ops Weeks.initial)))
  ∧ percentage (Days.DerivedStats (Days.run dops Days.initial))
    = round_percent
        (completed (Days.DerivedStats (Days.run dops Days.initial)))
        (Days.habits (Days.run dops Days.initial) * 7).
Proof.
  split; [|apply days_percentage_exact, days_run_in_bounds].
  pose proof (run_in_bounds ops _ initial_in_bounds) as Hb.
  rewrite (percentage_characterised _ Hb).
  destruct (_ =? _) eqn:Heq; [|done].
  apply Z.eqb_eq in Heq. unfold round_percent.
  destruct Hb as [Hh Hw].
  set (t := Weeks.habits _ * Weeks.weeks _) in *.
  set (c := completed _) in *.
  assert (1 ≤ t) by (unfold t; nia).
  replace (200 * c + t) with (58 * (2 * t)) by lia.
  rewrite Z.div_mul by lia. done.
Qed.
